(** * TeraBox extractor: a shallow embedding of [lib/teraboxExtractor.js]
      and of the [/api/extract] handler, with the properties of its
      specification.

    Conventions of the embedding.

    - A JavaScript string is a Rocq [string] holding the UTF-8 bytes of the
      text.  Substring tests ([includes], [startsWith]) and the regular
      expressions of the source only mention ASCII characters, and UTF-8 is
      self-synchronising, so they agree with their UTF-16 originals on
      well-formed text.
    - A JavaScript value is a [js_value]; an object is the list of its own
      properties in insertion order.
    - A number is kept as an exact decimal [m / 10^k] (plus [NaN] and the
      infinities), exact on the integers of magnitude below 2^53 and the
      short decimals that byte counts, identifiers and category codes are.
      The product of a random draw and its bound is rounded as binary64
      rounds it; the logarithm of [formatSize] is the exact one.
    - Code that can throw lives in the [completion] type; code that draws
      from [Math.random] threads the position in the stream of draws.
    - What the module takes from its platform ([new URL], [axios.get],
      [Math.random], the string-to-number conversion) is a [Platform]
      record: the general theorems hold for every platform, and the model
      runs on the sample platform of module [Sample]. *)

From Stdlib Require Import ZArith List String Ascii Bool Lia DecimalString.
Import ListNotations.
Local Open Scope string_scope.
Local Open Scope Z_scope.

(** ** Strings *)

Module Str.

(** The double quote character, code 34. *)
Definition dquote : ascii := Eval cbv in ascii_of_nat 34.

(** [quoted s] is [s] with every apostrophe replaced by a double quote: the
    way the sample pages below are written down. *)
Fixpoint quoted (s : string) : string :=
  match s with
  | EmptyString => EmptyString
  | String c s' => String (if Ascii.eqb c "'" then dquote else c) (quoted s')
  end.

Fixpoint drop (n : nat) (s : string) : string :=
  match n, s with
  | O, _ => s
  | S n', String _ s' => drop n' s'
  | S _, EmptyString => EmptyString
  end.

(** [s.startsWith(p)] *)
Definition startsWith (s p : string) : bool := prefix p s.

(** [s.includes(sub)] *)
Fixpoint includes (s sub : string) : bool :=
  startsWith s sub ||
  match s with
  | EmptyString => false
  | String _ s' => includes s' sub
  end.

(** [s.replace(pat, rep)] for a string pattern: the first occurrence only. *)
Fixpoint replace (pat rep s : string) : string :=
  if startsWith s pat then rep ++ drop (String.length pat) s
  else match s with
       | EmptyString => EmptyString
       | String c s' => String c (replace pat rep s')
       end.

Fixpoint take_while (cls : ascii -> bool) (s : string) : string :=
  match s with
  | EmptyString => EmptyString
  | String c s' => if cls c then String c (take_while cls s') else EmptyString
  end.

Fixpoint forallb (cls : ascii -> bool) (s : string) : bool :=
  match s with
  | EmptyString => true
  | String c s' => cls c && forallb cls s'
  end.

Definition is_empty (s : string) : bool :=
  match s with EmptyString => true | _ => false end.

Fixpoint repeat0 (n : nat) : string :=
  match n with O => EmptyString | S n' => String "0" (repeat0 n') end.

Fixpoint take (n : nat) (s : string) : string :=
  match n, s with
  | S n', String c s' => String c (take n' s')
  | _, _ => EmptyString
  end.

Fixpoint rev_onto (s acc : string) : string :=
  match s with
  | EmptyString => acc
  | String c s' => rev_onto s' (String c acc)
  end.

Definition rev (s : string) : string := rev_onto s EmptyString.

End Str.

(** ** Character classes and the regular expressions of the source *)

Module Regex.

Definition code (c : ascii) : N := N_of_ascii c.

(** [\d] *)
Definition digit (c : ascii) : bool := ((48 <=? code c) && (code c <=? 57))%N.

(** [[A-Za-z0-9_-]] *)
Definition token_char (c : ascii) : bool :=
  (((65 <=? code c) && (code c <=? 90))
   || ((97 <=? code c) && (code c <=? 122))
   || digit c || (code c =? 95) || (code c =? 45))%N.

(** The match of [/<lit>(<cls>+)/] anchored at the start of [s]: the group. *)
Definition token_here (lit : string) (cls : ascii -> bool) (s : string)
  : option string :=
  if Str.startsWith s lit then
    let t := Str.take_while cls (Str.drop (String.length lit) s) in
    if Str.is_empty t then None else Some t
  else None.

(** [s.match(/<lit>(<cls>+)/)]: group 1 of the leftmost match, the group
    being greedy. *)
Fixpoint search_token (lit : string) (cls : ascii -> bool) (s : string)
  : option string :=
  match token_here lit cls s with
  | Some t => Some t
  | None =>
      match s with
      | EmptyString => None
      | String _ s' => search_token lit cls s'
      end
  end.

(** A line terminator starts at the head of [s]: LF, CR, or the UTF-8 bytes
    of U+2028 or U+2029.  The dot of a regular expression matches none. *)
Definition line_terminator_here (s : string) : bool :=
  match s with
  | EmptyString => false
  | String c s' =>
      ((code c =? 10) || (code c =? 13)
       || ((code c =? 226)
           && match s' with
              | String c1 (String c2 _) =>
                  (code c1 =? 128) && ((code c2 =? 168) || (code c2 =? 169))
              | _ => false
              end))%N
  end.

(** The match of [(.*?);] anchored at the start of [s]: the text before the
    first semicolon, when no line terminator comes before it. *)
Fixpoint lazy_to_semicolon (s : string) : option string :=
  match s with
  | EmptyString => None
  | String c s' =>
      if Ascii.eqb c ";" then Some EmptyString
      else if line_terminator_here s then None
      else option_map (String c) (lazy_to_semicolon s')
  end.

Definition assignment_here (lit s : string) : option string :=
  if Str.startsWith s lit
  then lazy_to_semicolon (Str.drop (String.length lit) s)
  else None.

(** [s.match(/<lit>(.*?);/)]: group 1 of the leftmost match. *)
Fixpoint search_assignment (lit s : string) : option string :=
  match assignment_here lit s with
  | Some t => Some t
  | None =>
      match s with
      | EmptyString => None
      | String _ s' => search_assignment lit s'
      end
  end.

End Regex.

(** ** Numbers *)

Module Num.

(** [Dec m k] is the number [m / 10^k].  The normal form has [k = 0] or
    [m] not a multiple of ten, so equal numbers are equal terms.

    A number of the source is a binary64 number; this type keeps the exact
    decimal value.  The two agree, in value and in the digits printed, on
    the whole numbers below [2^53] and on the decimals of at most fifteen
    significant digits.  Beyond them [JSON.parse] rounds to binary64 and
    Number::toString prints the shortest digits that read back as the same
    number, which [JSON.parse_number] and [to_string] below do not
    follow. *)
Inductive number : Type :=
| NaN
| Infinity (negative : bool)
| Dec (m : Z) (k : nat).

Fixpoint norm (m : Z) (k : nat) : number :=
  match k with
  | O => Dec m 0
  | S k' => if m mod 10 =? 0 then norm (m / 10) k' else Dec m k
  end.

Definition of_Z (z : Z) : number := Dec z 0.

(** [x === y] on numbers: [NaN] differs from itself. *)
Definition strict_eq (x y : number) : bool :=
  match x, y with
  | Dec m k, Dec m' k' => (m =? m') && Nat.eqb k k'
  | Infinity a, Infinity b => Bool.eqb a b
  | _, _ => false
  end.

(** ToBoolean on numbers: zero and [NaN] are falsy. *)
Definition truthy (x : number) : bool :=
  match x with
  | NaN => false
  | Infinity _ => true
  | Dec m _ => negb (m =? 0)
  end.

(** The decimal digits of a natural number. *)
Definition digits (z : Z) : string :=
  NilZero.string_of_uint (N.to_uint (Z.to_N z)).

Fixpoint strip_zeros_rev (r : string) : string :=
  match r with
  | String c r' => if Ascii.eqb c "0" then strip_zeros_rev r' else r
  | EmptyString => EmptyString
  end.

(** The digit string without its trailing zeros. *)
Definition significand (d : string) : string :=
  Str.rev (strip_zeros_rev (Str.rev d)).

(** Number::toString of a positive [m / 10^k], after ECMA-262: with [s] the
    [K] significant digits and [n] the position of the decimal point. *)
Definition positive_to_string (m : Z) (k : nat) : string :=
  let d := digits m in
  let s := significand d in
  let K := Z.of_nat (String.length s) in
  let n := Z.of_nat (String.length d) - Z.of_nat k in
  if (K <=? n) && (n <=? 21) then s ++ Str.repeat0 (Z.to_nat (n - K))
  else if (0 <? n) && (n <=? 21) then
    Str.take (Z.to_nat n) s ++ "." ++ Str.drop (Z.to_nat n) s
  else if (-6 <? n) && (n <=? 0) then "0." ++ Str.repeat0 (Z.to_nat (- n)) ++ s
  else
    let e := n - 1 in
    let exp := (if e <? 0 then "e-" else "e+") ++ digits (Z.abs e) in
    if K =? 1 then s ++ exp
    else Str.take 1 s ++ "." ++ Str.drop 1 s ++ exp.

(** Number::toString, radix ten. *)
Definition to_string (x : number) : string :=
  match x with
  | NaN => "NaN"
  | Infinity false => "Infinity"
  | Infinity true => "-Infinity"
  | Dec m k =>
      if m =? 0 then "0"
      else if m <? 0 then "-" ++ positive_to_string (- m) k
      else positive_to_string m k
  end.

(** [Math.floor(Math.log(x) / Math.log(1024))] for a positive [m / 10^k],
    with the exact logarithm: the [i] with [1024^i <= x < 1024^(i+1)].
    The quotient of the two binary64 logarithms can round up to the next
    integer when [x] is a few units in the last place below a power of
    1024; of the whole numbers that happens just below [1024^5], as at
    [2^50 - 1], where the source gets 5 and this definition 4. *)
Definition log1024_floor (m : Z) (k : nat) : Z :=
  let q := 10 ^ Z.of_nat k in
  if q <=? m then Z.log2 (m / q) / 10
  else - ((Z.log2_up ((q + m - 1) / m) + 9) / 10).

(** [parseFloat((x / Math.pow(1024, i)).toFixed(2))] for a positive
    [x = m / 10^k]: the quotient rounded to the nearest hundredth, the upper
    one of two equally near. *)
Definition scaled_to_fixed2 (m : Z) (k : nat) (i : Z) : number :=
  let q := 10 ^ Z.of_nat k in
  let hundredths :=
    if 0 <=? i then (200 * m + q * 1024 ^ i) / (2 * (q * 1024 ^ i))
    else (200 * m * 1024 ^ (- i) + q) / (2 * q) in
  norm hundredths 2.

(** The integer nearest to [num / den], a tie going to the even one. *)
Definition round_half_even (num den : Z) : Z :=
  let q := num / den in
  let r := num mod den in
  if 2 * r <? den then q
  else if den <? 2 * r then q + 1
  else if Z.even q then q else q + 1.

(** [2^e <= p / q] *)
Definition at_least_pow2 (p q e : Z) : bool :=
  if 0 <=? e then q * 2 ^ e <=? p else q <=? p * 2 ^ (- e).

(** [Math.floor(x)] for the binary64 number [x] nearest to the exact
    quotient [p / q] of two positive integers, a tie going to the even
    significand: with [e] the exponent of the quotient, the quotient is
    rounded to a multiple of [2^(e - 52)].  This is the rounding of a
    product or quotient of two binary64 numbers whose exact value is
    [p / q]; the subnormal range and overflow are left out, both far from
    the numbers of the source. *)
Definition floor_binary64 (p q : Z) : Z :=
  if p <=? 0 then 0
  else
    let e0 := Z.log2 p - Z.log2 q in
    let e := if at_least_pow2 p q e0 then e0 else e0 - 1 in
    let s := 52 - e in
    if 0 <=? s then round_half_even (p * 2 ^ s) q / 2 ^ s
    else round_half_even p (q * 2 ^ (- s)) * 2 ^ (- s).

End Num.

(** ** JavaScript values and completions *)

#[warning="-register-all"]
Inductive js_value : Type :=
| JUndefined
| JNull
| JBool (b : bool)
| JNum (x : Num.number)
| JStr (s : string)
| JArr (items : list js_value)
| JObj (props : list (string * js_value)).

(** A thrown exception: its [message] is all the source reads of it. *)
Record js_error : Type := Error { message : string }.

(** The outcome of running code that can throw; for an [async] function,
    [Normal] is a resolved promise and [Throw] a rejected one. *)
Inductive completion (A : Type) : Type :=
| Normal (a : A)
| Throw (e : js_error).
Arguments Normal {A} a.
Arguments Throw {A} e.

Definition TypeError {A : Type} (msg : string) : completion A :=
  Throw (Error msg).

Module JS.

Definition bind {A B : Type} (c : completion A) (k : A -> completion B)
  : completion B :=
  match c with
  | Normal a => k a
  | Throw e => Throw e
  end.

(** The own property [key] of an object: the last binding wins. *)
Fixpoint own_property (key : string) (props : list (string * js_value))
  : option js_value :=
  match props with
  | [] => None
  | (k, v) :: rest =>
      match own_property key rest with
      | Some w => Some w
      | None => if String.eqb k key then Some v else None
      end
  end.

Definition has_own (key : string) (props : list (string * js_value)) : bool :=
  match own_property key props with Some _ => true | None => false end.

(** The number of UTF-16 code units of a text given by its UTF-8 bytes: one
    per character, two for a character of four bytes. *)
Fixpoint utf16_length (s : string) : Z :=
  match s with
  | EmptyString => 0
  | String c s' =>
      let n := Regex.code c in
      (if ((n <? 128) || (192 <=? n))%N then 1 else 0)
      + (if (240 <=? n)%N then 1 else 0)
      + utf16_length s'
  end.

(** The first character of a text: its first byte and the continuation
    bytes that follow it. *)
Definition first_char (s : string) : string :=
  match s with
  | EmptyString => EmptyString
  | String c s' =>
      String c (Str.take_while
                  (fun b => (128 <=? Regex.code b) && (Regex.code b <? 192))%N s')
  end.

(** [v[key]] and [v.key], for the keys the source reads: the own properties
    of an object, [length] and the index [0] of an array or a string.
    Reading a property of [undefined] or [null] throws. *)
Definition get (v : js_value) (key : string) : completion js_value :=
  match v with
  | JUndefined | JNull =>
      TypeError ("Cannot read properties of undefined or null, reading " ++ key)
  | JObj props =>
      Normal (match own_property key props with Some w => w | None => JUndefined end)
  | JArr items =>
      if String.eqb key "length" then Normal (JNum (Num.of_Z (Z.of_nat (List.length items))))
      else if String.eqb key "0" then Normal (List.hd JUndefined items)
      else Normal JUndefined
  | JStr s =>
      if String.eqb key "length" then Normal (JNum (Num.of_Z (utf16_length s)))
      else if String.eqb key "0"
           then Normal (if Str.is_empty s then JUndefined else JStr (first_char s))
      else Normal JUndefined
  | JBool _ | JNum _ => Normal JUndefined
  end.

(** ToBoolean *)
Definition truthy (v : js_value) : bool :=
  match v with
  | JUndefined | JNull => false
  | JBool b => b
  | JNum x => Num.truthy x
  | JStr s => negb (Str.is_empty s)
  | JArr _ | JObj _ => true
  end.

(** [a || b] *)
Definition or_else (a b : js_value) : js_value := if truthy a then a else b.

(** [v === n] for a number [n] *)
Definition strict_eq_num (v : js_value) (n : Z) : bool :=
  match v with
  | JNum x => Num.strict_eq x (Num.of_Z n)
  | _ => false
  end.

(** ToString, as a template literal applies it to each interpolated value.
    An array joins its elements with commas, [null] and [undefined]
    elements printing as nothing.  An object parsed from JSON prints as
    [[object Object]], unless it has an own property [toString], which is
    not callable: then the conversion throws. *)
Fixpoint to_string (v : js_value) : completion string :=
  match v with
  | JUndefined => Normal "undefined"
  | JNull => Normal "null"
  | JBool true => Normal "true"
  | JBool false => Normal "false"
  | JNum x => Normal (Num.to_string x)
  | JStr s => Normal s
  | JArr items =>
      let element (x : js_value) : completion string :=
        match x with
        | JUndefined | JNull => Normal EmptyString
        | _ => to_string x
        end in
      (fix join (l : list js_value) : completion string :=
         match l with
         | [] => Normal EmptyString
         | [x] => element x
         | x :: rest =>
             bind (element x) (fun s =>
             bind (join rest) (fun r => Normal (s ++ "," ++ r)))
         end) items
  | JObj props =>
      if has_own "toString" props
      then TypeError "Cannot convert object to primitive value"
      else Normal "[object Object]"
  end.

End JS.

(** ** [JSON.parse] *)

Module JSON.

Import Regex.

Definition is_ws (c : ascii) : bool :=
  ((code c =? 32) || (code c =? 9) || (code c =? 10) || (code c =? 13))%N.

Fixpoint skip_ws (s : string) : string :=
  match s with
  | String c s' => if is_ws c then skip_ws s' else s
  | EmptyString => EmptyString
  end.

Definition hex_value (c : ascii) : option Z :=
  let n := Z.of_N (code c) in
  if (48 <=? n) && (n <=? 57) then Some (n - 48)
  else if (65 <=? n) && (n <=? 70) then Some (n - 55)
  else if (97 <=? n) && (n <=? 102) then Some (n - 87)
  else None.

Definition byte (z : Z) : ascii := ascii_of_N (Z.to_N z).

(** The UTF-8 bytes of a code point; a lone surrogate is written like any
    other code point of three bytes. *)
Definition utf8 (cp : Z) : string :=
  if cp <? 128 then String (byte cp) EmptyString
  else if cp <? 2048 then
    String (byte (192 + cp / 64)) (String (byte (128 + cp mod 64)) EmptyString)
  else if cp <? 65536 then
    String (byte (224 + cp / 4096))
      (String (byte (128 + (cp / 64) mod 64))
         (String (byte (128 + cp mod 64)) EmptyString))
  else
    String (byte (240 + cp / 262144))
      (String (byte (128 + (cp / 4096) mod 64))
         (String (byte (128 + (cp / 64) mod 64))
            (String (byte (128 + cp mod 64)) EmptyString))).

(** A piece of a string literal: a byte of the text, or the code unit of a
    [\uXXXX] escape. *)
Inductive piece : Type :=
| Raw (c : ascii)
| Unit (u : Z).

Definition simple_escape (e : ascii) : option ascii :=
  if Ascii.eqb e Str.dquote then Some Str.dquote
  else if Ascii.eqb e "\" then Some "\"%char
  else if Ascii.eqb e "/" then Some "/"%char
  else if Ascii.eqb e "b" then Some (byte 8)
  else if Ascii.eqb e "f" then Some (byte 12)
  else if Ascii.eqb e "n" then Some (byte 10)
  else if Ascii.eqb e "r" then Some (byte 13)
  else if Ascii.eqb e "t" then Some (byte 9)
  else None.

(** The body of a string literal, after its opening quote: the pieces up to
    the closing quote, and the text after it. *)
Fixpoint string_body (s : string) : option (list piece * string) :=
  match s with
  | EmptyString => None
  | String c s1 =>
      if Ascii.eqb c Str.dquote then Some ([], s1)
      else if (code c <? 32)%N then None
      else if Ascii.eqb c "\" then
        match s1 with
        | EmptyString => None
        | String e s2 =>
            if Ascii.eqb e "u" then
              match s2 with
              | String h1 (String h2 (String h3 (String h4 s6))) =>
                  match hex_value h1, hex_value h2, hex_value h3, hex_value h4 with
                  | Some a, Some b, Some c', Some d =>
                      match string_body s6 with
                      | Some (ps, r) =>
                          Some (Unit (((a * 16 + b) * 16 + c') * 16 + d) :: ps, r)
                      | None => None
                      end
                  | _, _, _, _ => None
                  end
              | _ => None
              end
            else
              match simple_escape e with
              | Some x =>
                  match string_body s2 with
                  | Some (ps, r) => Some (Raw x :: ps, r)
                  | None => None
                  end
              | None => None
              end
        end
      else
        match string_body s1 with
        | Some (ps, r) => Some (Raw c :: ps, r)
        | None => None
        end
  end.

(** The text of the pieces: a high surrogate escape followed by a low one
    is one character. *)
Fixpoint decode (ps : list piece) : string :=
  match ps with
  | [] => EmptyString
  | Raw c :: rest => String c (decode rest)
  | Unit hi :: rest =>
      match rest with
      | Unit lo :: rest' =>
          if (55296 <=? hi) && (hi <=? 56319) && (56320 <=? lo) && (lo <=? 57343)
          then utf8 (65536 + (hi - 55296) * 1024 + (lo - 56320)) ++ decode rest'
          else utf8 hi ++ decode rest
      | _ => utf8 hi ++ decode rest
      end
  end.

Definition parse_string (s : string) : option (string * string) :=
  match string_body s with
  | Some (ps, r) => Some (decode ps, r)
  | None => None
  end.

Fixpoint digits_value (acc : Z) (s : string) : Z :=
  match s with
  | EmptyString => acc
  | String c s' => digits_value (acc * 10 + (Z.of_N (code c) - 48)) s'
  end.

Definition head_is (c : ascii) (s : string) : bool :=
  match s with
  | String x _ => Ascii.eqb x c
  | EmptyString => false
  end.

(** A number literal of the JSON grammar (an optional minus sign, an integer
    part with no leading zero, an optional fraction, an optional exponent),
    its exact value, and the text after it. *)
Definition parse_number (s : string) : option (Num.number * string) :=
  let negative := head_is "-" s in
  let s1 := if negative then Str.drop 1 s else s in
  let int_part := if head_is "0" s1 then "0" else Str.take_while digit s1 in
  if Str.is_empty int_part then None else
  let s2 := Str.drop (String.length int_part) s1 in
  let frac := if head_is "." s2 then Some (Str.take_while digit (Str.drop 1 s2)) else None in
  match frac with
  | Some EmptyString => None
  | _ =>
      let frac_part := match frac with Some f => f | None => EmptyString end in
      let s3 := match frac with
                | Some f => Str.drop (1 + String.length f) s2
                | None => s2
                end in
      let has_exp := head_is "e" s3 || head_is "E" s3 in
      let s4 := if has_exp then Str.drop 1 s3 else s3 in
      let exp_negative := has_exp && head_is "-" s4 in
      let s5 := if has_exp && (head_is "-" s4 || head_is "+" s4)
                then Str.drop 1 s4 else s4 in
      let exp_part := if has_exp then Str.take_while digit s5 else EmptyString in
      if has_exp && Str.is_empty exp_part then None else
      let rest := Str.drop (String.length exp_part) s5 in
      let mantissa := digits_value (digits_value 0 int_part) frac_part in
      let m := if negative then - mantissa else mantissa in
      let e := (if exp_negative then - digits_value 0 exp_part
                else digits_value 0 exp_part)
               - Z.of_nat (String.length frac_part) in
      Some (if 0 <=? e then Num.Dec (m * 10 ^ e) 0 else Num.norm m (Z.to_nat (- e)),
            rest)
  end.

(** A JSON value at the head of [s], after white space, and the text after
    it.  [fuel] bounds the nesting depth; the loops over the members of an
    object and the elements of an array are bounded by the text left. *)
Fixpoint parse_value (fuel : nat) (s : string) : option (js_value * string) :=
  match fuel with
  | O => None
  | S fuel' =>
      let s := skip_ws s in
      match s with
      | EmptyString => None
      | String c r =>
          if Ascii.eqb c "{" then
            if head_is "}" (skip_ws r) then Some (JObj [], Str.drop 1 (skip_ws r))
            else
              (fix members (n : nat) (t : string) (acc : list (string * js_value))
                 : option (js_value * string) :=
                 match n with
                 | O => None
                 | S n' =>
                     let t := skip_ws t in
                     if head_is Str.dquote t then
                       match parse_string (Str.drop 1 t) with
                       | Some (key, t1) =>
                           let t1 := skip_ws t1 in
                           if head_is ":" t1 then
                             match parse_value fuel' (Str.drop 1 t1) with
                             | Some (v, t2) =>
                                 let t2 := skip_ws t2 in
                                 let acc := (acc ++ [(key, v)])%list in
                                 if head_is "," t2 then members n' (Str.drop 1 t2) acc
                                 else if head_is "}" t2 then Some (JObj acc, Str.drop 1 t2)
                                 else None
                             | None => None
                             end
                           else None
                       | None => None
                       end
                     else None
                 end) (S (String.length r)) r []
          else if Ascii.eqb c "[" then
            if head_is "]" (skip_ws r) then Some (JArr [], Str.drop 1 (skip_ws r))
            else
              (fix elements (n : nat) (t : string) (acc : list js_value)
                 : option (js_value * string) :=
                 match n with
                 | O => None
                 | S n' =>
                     match parse_value fuel' t with
                     | Some (v, t1) =>
                         let t1 := skip_ws t1 in
                         let acc := (acc ++ [v])%list in
                         if head_is "," t1 then elements n' (Str.drop 1 t1) acc
                         else if head_is "]" t1 then Some (JArr acc, Str.drop 1 t1)
                         else None
                     | None => None
                     end
                 end) (S (String.length r)) r []
          else if Ascii.eqb c Str.dquote then
            match parse_string r with
            | Some (str, t) => Some (JStr str, t)
            | None => None
            end
          else if Str.startsWith s "true" then Some (JBool true, Str.drop 4 s)
          else if Str.startsWith s "false" then Some (JBool false, Str.drop 5 s)
          else if Str.startsWith s "null" then Some (JNull, Str.drop 4 s)
          else
            match parse_number s with
            | Some (x, t) => Some (JNum x, t)
            | None => None
            end
      end
  end.

(** [JSON.parse(text)]: one value, white space around it, nothing else;
    anything else is a [SyntaxError]. *)
Definition parse (text : string) : completion js_value :=
  match parse_value (S (String.length text)) text with
  | Some (v, rest) =>
      if Str.is_empty (skip_ws rest) then Normal v
      else Throw (Error "Unexpected non-whitespace character after JSON")
  | None => Throw (Error "Unexpected token in JSON")
  end.

End JSON.

(** ** The platform *)

(** What the module calls and does not define. *)
Record Platform : Type := {
  (** [new URL(u).hostname]; [None] when the constructor throws *)
  URL_hostname : string -> option string;
  (** [(await axios.get(u, ...)).data]: the text of the page, or the error
      the call throws (network failure, timeout, status outside 2xx) *)
  axios_get : string -> completion string;
  (** the [n]-th result of [Math.random()], a binary64 number, as
      numerator and denominator *)
  Math_random : nat -> Z * Z;
  (** the conversion of a string to a number *)
  StringToNumber : string -> Num.number
}.

(** A binary64 number of [[0, 1)]: a numerator of at most 53 bits over a
    power of two that is at most [2^1074], below [1]. *)
Definition unit_draw (d : Z * Z) : Prop :=
  0 <= fst d < 2 ^ 53
  /\ snd d = 2 ^ Z.log2 (snd d)
  /\ Z.log2 (snd d) <= 1074
  /\ fst d < snd d.

(** [Math.random()] returns a number of [[0, 1)]. *)
Definition random_in_unit_interval (P : Platform) : Prop :=
  forall n, unit_draw (Math_random P n).

(** ** Computations that throw and draw random numbers *)

(** A computation from the position in the stream of random draws to a
    completion and the position after it. *)
Definition M (A : Type) : Type := nat -> completion A * nat.

Definition ret {A : Type} (a : A) : M A := fun n => (Normal a, n).

Definition lift {A : Type} (c : completion A) : M A := fun n => (c, n).

Definition bindM {A B : Type} (c : M A) (k : A -> M B) : M B :=
  fun n =>
    match c n with
    | (Normal a, n') => k a n'
    | (Throw e, n') => (Throw e, n')
    end.

(** [try { body } catch (e) { handler }] *)
Definition try_catch {A : Type} (body : M A) (handler : js_error -> M A) : M A :=
  fun n =>
    match body n with
    | (Normal a, n') => (Normal a, n')
    | (Throw e, n') => handler e n'
    end.

Declare Scope js_scope.
Delimit Scope js_scope with js.
Notation "x <- c ;; k" := (bindM c (fun x => k))
  (at level 61, c at next level, right associativity) : js_scope.
Local Open Scope js_scope.

(** ** lib/teraboxExtractor.js *)

Section Extractor.

Variable P : Platform.

(** The value of [Math.floor(Math.random() * bound)] at the [n]-th draw:
    the floor of the product as binary64 rounds it. *)
Definition floor_draw (bound : Z) (n : nat) : Z :=
  Num.floor_binary64 (fst (Math_random P n) * bound) (snd (Math_random P n)).

(** [Math.floor(Math.random() * bound)] *)
Definition floor_random (bound : Z) : M Z :=
  fun n => (Normal (floor_draw bound n), S n).

(** A random integer as a template literal prints it. *)
Definition random_digits (bound : Z) : M string :=
  r <- floor_random bound ;; ret (Num.to_string (Num.of_Z r)).

(** ToNumber *)
Definition to_number (v : js_value) : completion Num.number :=
  match v with
  | JUndefined => Normal Num.NaN
  | JNull => Normal (Num.of_Z 0)
  | JBool b => Normal (Num.of_Z (if b then 1 else 0))
  | JNum x => Normal x
  | JStr s => Normal (StringToNumber P s)
  | JArr _ | JObj _ => JS.bind (JS.to_string v) (fun s => Normal (StringToNumber P s))
  end.

Definition validDomains : list string :=
  ["terabox.com"; "1024tera.com"; "teraboxapp.com"; "4funbox.com"; "1024terabox.com"].

(** [normalizeTeraBoxUrl(url)]: the URL, or [None] for [null]. *)
Definition normalizeTeraBoxUrl (url : string) : option string :=
  if Str.is_empty url then None
  else
    match URL_hostname P url with
    | None => None
    | Some hostname =>
        let domain := Str.replace "www." EmptyString hostname in
        if negb (existsb (fun validDomain => Str.includes domain validDomain) validDomains)
        then None
        else if Str.includes url "/s/" then Some url
        else Some url
    end.

Definition fs_id_marker : string := Eval cbv in Str.quoted "'fs_id':".
Definition shareid_marker : string := Eval cbv in Str.quoted "'shareid':".

(** [extractFileId(url, pageContent)]: the identifier, or [None] for [null]. *)
Definition extractFileId (url pageContent : string) : option string :=
  match (if Str.includes url "/s/"
         then Regex.search_token "/s/" Regex.token_char url
         else None) with
  | Some token => Some token
  | None =>
      match Regex.search_token fs_id_marker Regex.digit pageContent with
      | Some fid => Some fid
      | None =>
          match Regex.search_token shareid_marker Regex.digit pageContent with
          | Some shareid => Some shareid
          | None => None
          end
      end
  end.

Definition sizes : list string := ["Bytes"; "KB"; "MB"; "GB"; "TB"].

(** [sizes[i]] in a string concatenation: out of the list it is
    [undefined]. *)
Definition sizes_at (i : Z) : string :=
  if i <? 0 then "undefined" else nth (Z.to_nat i) sizes "undefined".

(** [formatSize] on a number other than the zero its first line returns
    on.  A negative, zero or infinite number makes the logarithm or the
    quotient [NaN]. *)
Definition formatNumber (x : Num.number) : string :=
  match x with
  | Num.Dec m k =>
      if 0 <? m then
        let i := Num.log1024_floor m k in
        Num.to_string (Num.scaled_to_fixed2 m k i) ++ " " ++ sizes_at i
      else "NaN undefined"
  | _ => "NaN undefined"
  end.

(** [formatSize(bytes)] *)
Definition formatSize (bytes : js_value) : completion string :=
  if JS.strict_eq_num bytes 0 then Normal "0 Bytes"
  else JS.bind (to_number bytes) (fun x => Normal (formatNumber x)).

(** [`${v}`] *)
Definition interpolate (v : js_value) : M string := lift (JS.to_string v).

(** [`${o.key}`] *)
Definition interpolate_property (o : js_value) (key : string) : M string :=
  v <- lift (JS.get o key) ;; interpolate v.

(** [createDirectLink(fileInfo, server, sign, timestamp)] *)
Definition createDirectLink (fileInfo server sign timestamp : js_value) : M string :=
  file <- interpolate_property fileInfo "fs_id" ;;
  fid <- interpolate_property fileInfo "fs_id" ;;
  r1 <- random_digits 10000 ;;
  r2 <- random_digits 10000000000 ;;
  dstime <- interpolate timestamp ;;
  sgn <- interpolate sign ;;
  logid <- random_digits 100000000000000 ;;
  r <- random_digits 1000000000 ;;
  ret ("https://d.1024tera.com/file/" ++ file ++ "?fid=" ++ fid ++ "-" ++ r1
       ++ "-" ++ r2 ++ "&dstime=" ++ dstime ++ "&rt=sh&sign=" ++ sgn
       ++ "&expires=8h&chkv=0&chkbd=0&chkpc=&dp-logid=" ++ logid
       ++ "&dp-callid=0&r=" ++ r ++ "&sh=1&region=jp").

(** One entry of the thumbnail map. *)
Definition thumbnail (baseThumbUrl randomParams size ft : string) : js_value :=
  JStr (baseThumbUrl ++ randomParams ++ "&size=" ++ size
        ++ "&quality=100&vuk=-&ft=" ++ ft).

(** [generateThumbnailUrls(fileInfo, server, sign, timestamp)]: the map, or
    [JNull]. *)
Definition generateThumbnailUrls (fileInfo server sign timestamp : js_value)
  : M js_value :=
  category <- lift (JS.get fileInfo "category") ;;
  let isVideo := JS.strict_eq_num category 1 in
  category' <- lift (JS.get fileInfo "category") ;;
  let isImage := JS.strict_eq_num category' 3 in
  if negb isVideo && negb isImage then ret JNull
  else
    file <- interpolate_property fileInfo "fs_id" ;;
    let baseThumbUrl := "https://data.1024tera.com/thumbnail/" ++ file in
    fid <- interpolate_property fileInfo "fs_id" ;;
    r1 <- random_digits 10000 ;;
    r2 <- random_digits 10000000000 ;;
    time <- interpolate timestamp ;;
    sgn <- interpolate sign ;;
    logid <- random_digits 100000000000000 ;;
    let randomParams :=
      "?fid=" ++ fid ++ "-" ++ r1 ++ "-" ++ r2 ++ "&time=" ++ time
      ++ "&rt=sh&sign=" ++ sgn ++ "&expires=8h&chkv=0&chkbd=0&chkpc=&dp-logid="
      ++ logid ++ "&dp-callid=0" in
    let ft := if isVideo then "video" else "image" in
    ret (JObj [("140x90", thumbnail baseThumbUrl randomParams "c140_u90" ft);
               ("360x270", thumbnail baseThumbUrl randomParams "c360_u270" ft);
               ("60x60", thumbnail baseThumbUrl randomParams "c60_u60" ft);
               ("850x580", thumbnail baseThumbUrl randomParams "c850_u580" ft)]).

(** [pageContent.match(/window\.yunData = (.*?);/)]: group 1. *)
Definition dataMatch (pageContent : string) : option string :=
  Regex.search_assignment "window.yunData = " pageContent.

(** The body of the [try] block of [extractFileInfoFromPage]. *)
Definition fileInfoFromData (data : string) : M js_value :=
  yunData <- lift (JSON.parse data) ;;
  file_list <- lift (JS.get yunData "file_list") ;;
  let fileList := JS.or_else file_list (JArr []) in
  len <- lift (JS.get fileList "length") ;;
  if JS.strict_eq_num len 0 then ret JNull
  else
    fileInfo <- lift (JS.get fileList "0") ;;
    srv <- lift (JS.get yunData "server") ;;
    let server := JS.or_else srv (JStr EmptyString) in
    sgn <- lift (JS.get yunData "sign") ;;
    let sign := JS.or_else sgn (JStr EmptyString) in
    ts <- lift (JS.get yunData "timestamp") ;;
    let timestamp := JS.or_else ts (JStr EmptyString) in
    directLink <- createDirectLink fileInfo server sign timestamp ;;
    server_filename <- lift (JS.get fileInfo "server_filename") ;;
    size <- lift (JS.get fileInfo "size") ;;
    formatted <- lift (formatSize (JS.or_else size (JNum (Num.of_Z 0)))) ;;
    thumbnails <- generateThumbnailUrls fileInfo server sign timestamp ;;
    ret (JObj [("title", JS.or_else server_filename (JStr "Unknown"));
               ("size", JStr formatted);
               ("directLink", JStr directLink);
               ("thumbnails", thumbnails)]).

(** [extractFileInfoFromPage(pageContent)]: the file info, or [JNull]. *)
Definition extractFileInfoFromPage (pageContent : string) : M js_value :=
  match dataMatch pageContent with
  | None => ret JNull
  | Some data =>
      if Str.is_empty data then ret JNull
      else try_catch (fileInfoFromData data) (fun e => ret JNull)
  end.

(** [generateShortLink(originalUrl, fileId)], an [async] function. *)
Definition generateShortLink (originalUrl fileId : string) : completion string :=
  Normal ("https://1024terabox.com/s/" ++ fileId).

(** [formatResponse(fileInfo, shortLink)] *)
Definition formatResponse (fileInfo : js_value) (shortLink : string)
  : completion js_value :=
  JS.bind (JS.get fileInfo "title") (fun title =>
  JS.bind (JS.get fileInfo "size") (fun size =>
  JS.bind (JS.get fileInfo "directLink") (fun directLink =>
  JS.bind (JS.get fileInfo "thumbnails") (fun thumbnails =>
  Normal (JObj [("status", JStr "✅ Success");
                ("📋 Extracted Info",
                 JArr [JObj [("📄 Title", title);
                             ("📦 Size", size);
                             ("🔗 Direct Download Link", directLink);
                             ("🖼️ Thumbnails", JS.or_else thumbnails (JObj []))]]);
                ("🔗 ShortLink", JStr shortLink)]))))).

(** An object with the one property [status]. *)
Definition status_only (status : string) : js_value :=
  JObj [("status", JStr status)].

(** [error.message || fallback] *)
Definition message_or (e : js_error) (fallback : string) : string :=
  if Str.is_empty (message e) then fallback else message e.

(** [extractTeraBoxInfo(url)].  [cheerio.load] builds a document that is
    not used; [console.error] is not modelled. *)
Definition extractTeraBoxInfo (url : string) : M js_value :=
  try_catch
    (match normalizeTeraBoxUrl url with
     | None => ret (status_only "❌ Error: Invalid TeraBox URL")
     | Some normalizedUrl =>
         data <- lift (axios_get P normalizedUrl) ;;
         match extractFileId normalizedUrl data with
         | None => ret (status_only "❌ Error: Could not extract file ID")
         | Some fileId =>
             fileInfo <- extractFileInfoFromPage data ;;
             if negb (JS.truthy fileInfo)
             then ret (status_only "❌ Error: Could not extract file info")
             else
               shortLink <- lift (generateShortLink normalizedUrl fileId) ;;
               lift (formatResponse fileInfo shortLink)
         end
     end)
    (fun error =>
       ret (status_only ("❌ Error: " ++ message_or error "Failed to extract information"))).

(** ** pages/api/extract.js *)

Record response : Type := {
  statusCode : Z;
  allow : option (list string);
  body : js_value
}.

(** [result.status.includes('Success')] *)
Definition status_includes_Success (result : js_value) : completion bool :=
  JS.bind (JS.get result "status") (fun status =>
  match status with
  | JStr s => Normal (Str.includes s "Success")
  | _ => TypeError "result.status.includes is not a function"
  end).

(** What a middleware does with a request: it calls [next], with an error
    or without one, or it ends the response itself with a status code and
    never calls [next]. *)
Inductive middleware_outcome : Type :=
| Next (result : option js_error)
| Ended (statusCode : Z).

(** [method.toUpperCase()], for the ASCII letters of a method name. *)
Fixpoint toUpperCase (s : string) : string :=
  match s with
  | EmptyString => EmptyString
  | String c s' =>
      let n := Regex.code c in
      String (if ((97 <=? n) && (n <=? 122))%N then ascii_of_N (n - 32) else c)
        (toUpperCase s')
  end.

(** [Cors({ methods: ['GET', 'HEAD'], origin: '*' })]: the middleware of the
    [cors] package answers a preflight request, of method OPTIONS, itself,
    with 204 and an empty body, and lets every other request through.  The
    CORS headers it sets are not modelled. *)
Definition cors (method : string) : middleware_outcome :=
  if String.eqb (toUpperCase method) "OPTIONS" then Ended 204 else Next None.

(** [runMiddleware(req, res, fn)] once [fn] has called back with [result]:
    the promise rejects with an error, and resolves otherwise. *)
Definition runMiddleware (result : option js_error) : completion unit :=
  match result with
  | Some e => Throw e
  | None => Normal tt
  end.

(** [handler(req, res)] for a request of the given method and [url] query
    parameter, a string when it is there: the answer the client gets.
    When the middleware ends the response it never calls back, the promise
    of [runMiddleware] never settles and the handler does not go on: the
    answer is the one of the middleware. *)
Definition handler (method : string) (url : option string) : M response :=
  match cors method with
  | Ended code => ret {| statusCode := code; allow := None; body := JUndefined |}
  | Next result =>
      bindM (lift (runMiddleware result)) (fun _ =>
      if negb (String.eqb method "GET") then
        ret {| statusCode := 405; allow := Some ["GET"];
               body := status_only "❌ Error: Method not allowed" |}
      else
        match url with
        | None | Some EmptyString =>
            ret {| statusCode := 400; allow := None;
                   body := status_only "❌ Error: Missing URL parameter" |}
        | Some url =>
            try_catch
              (result <- extractTeraBoxInfo url ;;
               ok <- lift (status_includes_Success result) ;;
               ret {| statusCode := if ok then 200 else 400; allow := None;
                      body := result |})
              (fun error =>
                 ret {| statusCode := 500; allow := None;
                        body := status_only
                                  ("❌ Error: " ++ message_or error "Internal server error") |})
        end)
  end.

End Extractor.

(** ** A sample platform

    A platform to run the model on: the hostname of an [https] URL whose
    host is made of lower-case letters, digits, dots and hyphens and ends in
    [.com] (the constructor [URL] leaves such a host as it is), a handful of
    pages, a fixed stream of random numbers, the odd multiples of [2^-52]. *)

Module Sample.

Definition host_char (c : ascii) : bool :=
  (((97 <=? Regex.code c) && (Regex.code c <=? 122))
   || Regex.digit c || (Regex.code c =? 46) || (Regex.code c =? 45))%N.

Definition ends_with (s suffix : string) : bool :=
  Str.startsWith (Str.rev s) (Str.rev suffix).

Definition hostname (url : string) : option string :=
  if Str.startsWith url "https://" then
    let rest := Str.drop 8 url in
    let host := Str.take_while host_char rest in
    let after := Str.drop (String.length host) rest in
    if ends_with host ".com" && negb (Str.includes host "xn--")
       && (Str.is_empty after || Str.startsWith after "/")
    then Some host else None
  else None.

(** The page of the end-to-end scenario of the specification. *)
Definition movie_page : string := Eval cbv in Str.quoted
  "<script>window.yunData = {'file_list':[{'server_filename':'movie.mp4','size':1073741824,'fs_id':12345,'category':1}],'server':'s1','sign':'xyz','timestamp':'111'};</script>".

(** A page without the assignment. *)
Definition plain_page : string := "<html><body>share not found</body></html>".

(** A page whose assignment does not hold JSON. *)
Definition broken_page : string := Eval cbv in Str.quoted
  "<script>window.yunData = {'file_list': oops};</script>".

(** A page whose data has an empty file list. *)
Definition empty_page : string := Eval cbv in Str.quoted
  "<script>window.yunData = {'file_list':[],'sign':'xyz'};</script>".

Definition pages (url : string) : completion string :=
  if String.eqb url "https://terabox.com/s/1AbcDefGh" then Normal movie_page
  else if String.eqb url "https://terabox.com/s/plain" then Normal plain_page
  else if String.eqb url "https://terabox.com/s/broken" then Normal broken_page
  else if String.eqb url "https://terabox.com/s/empty" then Normal empty_page
  else if String.eqb url "https://terabox.com/s/crash"
       then Throw (Error "Maximum call stack size exceeded")
  else Throw (Error "Request failed with status code 404").

Definition decimal (s : string) : Num.number :=
  if Str.forallb Regex.digit s then Num.of_Z (JSON.digits_value 0 s) else Num.NaN.

Definition platform : Platform := {|
  URL_hostname := hostname;
  axios_get := pages;
  Math_random := fun n => ((2 * Z.of_nat n + 1) mod 2 ^ 52, 2 ^ 52);
  StringToNumber := decimal
|}.

End Sample.


(** ** pages/index.js *)

Module Home.

(** The state of the page: the four [useState] cells. *)
Record state : Type := {
  url : string;
  result : js_value;
  loading : bool;
  error : js_value
}.

(** The state of a page just opened. *)
Definition initial : state :=
  {| url := EmptyString; result := JNull; loading := false; error := JNull |}.

Definition setUrl (u : string) (st : state) : state :=
  {| url := u; result := result st; loading := loading st; error := error st |}.

Definition setResult (v : js_value) (st : state) : state :=
  {| url := url st; result := v; loading := loading st; error := error st |}.

Definition setLoading (b : bool) (st : state) : state :=
  {| url := url st; result := result st; loading := b; error := error st |}.

Definition setError (v : js_value) (st : state) : state :=
  {| url := url st; result := result st; loading := loading st; error := v |}.

(** [status.includes('Success')]: a substring test on a string, a
    membership test on an array; anything else has no such method. *)
Definition includes_Success (status : js_value) : completion bool :=
  match status with
  | JStr s => Normal (Str.includes s "Success")
  | JArr items =>
      Normal (existsb (fun x => match x with
                                | JStr s => String.eqb s "Success"
                                | _ => false
                                end) items)
  | JUndefined | JNull =>
      TypeError "Cannot read properties of undefined or null, reading includes"
  | JBool _ | JNum _ | JObj _ => TypeError "data.status.includes is not a function"
  end.

(** The body of the [try] block of [handleSubmit], after the two awaits
    gave [data]: the update of the state it ends with. *)
Definition received (data : js_value) : completion (state -> state) :=
  JS.bind (JS.get data "status") (fun status =>
  JS.bind (includes_Success status) (fun ok =>
  if ok then Normal (setResult data)
  else
    JS.bind (JS.get data "status") (fun status' =>
    Normal (setError (JS.or_else status' (JStr "Failed to extract information")))))).

(** [handleSubmit(e)], the state after it has run.  [api u] is what
    [fetch('/api/extract?url=' + encodeURIComponent(u))] and
    [response.json()] give: the decoded body, or the error one of them
    throws. *)
Definition handleSubmit (api : string -> completion js_value) (st : state) : state :=
  let st := setLoading true st in
  let st := setError JNull st in
  let st :=
    match JS.bind (api (url st)) received with
    | Normal update => update st
    | Throw err =>
        setError (JStr (message_or err "An unexpected error occurred")) st
    end in
  setLoading false st.

(** [v?.[key]] *)
Definition optional_get (v : js_value) (key : string) : completion js_value :=
  match v with
  | JUndefined | JNull => Normal JUndefined
  | _ => JS.get v key
  end.

(** The source of the thumbnail preview, when the page shows one: the
    value of [result['📋 Extracted Info']?.[0]?.['🖼️ Thumbnails']?.['360x270']]
    under [result &&], when it is truthy. *)
Definition thumbnailPreview (result : js_value) : completion (option js_value) :=
  if JS.truthy result then
    JS.bind (JS.get result "📋 Extracted Info") (fun info =>
    JS.bind (optional_get info "0") (fun first =>
    JS.bind (optional_get first "🖼️ Thumbnails") (fun thumbnails =>
    JS.bind (optional_get thumbnails "360x270") (fun src =>
    Normal (if JS.truthy src then Some src else None)))))
  else Normal None.

End Home.

(** A platform whose every fetch throws the error [e]. *)
Definition failing_platform (e : js_error) : Platform := {|
  URL_hostname := Sample.hostname;
  axios_get := fun _ => Throw e;
  Math_random := fun n => (0, 1);
  StringToNumber := Sample.decimal
|}.

(** What the browser receives from the endpoint for the URL [u], when the
    query string and the JSON body pass unchanged: the body of the answer
    of [handler]. *)
Definition served (P : Platform) (n : nat) (u : string) : completion js_value :=
  match handler P "GET" (Some u) n with
  | (Normal r, _) => Normal (body r)
  | (Throw e, _) => Throw e
  end.

(** A platform whose every fetch returns the page [pageContent]. *)
Definition serving_platform (pageContent : string) : Platform := {|
  URL_hostname := Sample.hostname;
  axios_get := fun _ => Normal pageContent;
  Math_random := fun n => (0, 1);
  StringToNumber := Sample.decimal
|}.

(** A page whose data decodes to [null]. *)
Definition null_page : string := "<script>window.yunData = null;</script>".

(** Four draws, 1/2, 3/4, 1082208916029830/2^52 and 1 - 2^-52, and then
    2^-52 for ever. *)
Definition sample_draws (n : nat) : Z * Z :=
  match n with
  | 0%nat => (2 ^ 51, 2 ^ 52)
  | 1%nat => (3 * 2 ^ 50, 2 ^ 52)
  | 2%nat => (1082208916029830, 2 ^ 52)
  | 3%nat => (2 ^ 52 - 1, 2 ^ 52)
  | _ => (1, 2 ^ 52)
  end.

(** The sample platform with these draws. *)
Definition drawing_platform : Platform := {|
  URL_hostname := Sample.hostname;
  axios_get := Sample.pages;
  Math_random := sample_draws;
  StringToNumber := Sample.decimal
|}.
(** * Properties *)

(** ** The two shapes of a result *)

(** The failure shape: the status only, an error message after the mark. *)
Definition failure_result (v : js_value) : Prop :=
  exists msg, v = status_only ("❌ Error: " ++ msg).

(** The success shape: the marker, one info record, the short link. *)
Definition success_result (v : js_value) : Prop :=
  exists info shortLink,
    v = JObj [("status", JStr "✅ Success");
              ("📋 Extracted Info", JArr [info]);
              ("🔗 ShortLink", JStr shortLink)].

(** The [status] of a result, when it is a string. *)
Definition status_of (v : js_value) : option string :=
  match JS.get v "status" with
  | Normal (JStr s) => Some s
  | _ => None
  end.


(** ** The failures of the page data parser *)

(** The three error kinds the specification names for the parser. *)
Inductive error_kind : Type :=
| PageDataNotFound
| PageDataInvalid
| EmptyFileList.

(** A page fails with a kind: no assignment is found in it; or the text of
    the assignment does not decode; or the decoded data has no [file_list],
    or an empty one. *)
Definition fails_with (kind : error_kind) (pageContent : string) : Prop :=
  match kind with
  | PageDataNotFound => dataMatch pageContent = None
  | PageDataInvalid =>
      exists data e, dataMatch pageContent = Some data /\ JSON.parse data = Throw e
  | EmptyFileList =>
      exists data yunData file_list,
        dataMatch pageContent = Some data
        /\ JSON.parse data = Normal yunData
        /\ JS.get yunData "file_list" = Normal file_list
        /\ (file_list = JUndefined \/ file_list = JArr [])
  end.

(** The status of every failure of the parser. *)
Definition no_file_info : string := "❌ Error: Could not extract file info".

(** The data of the sample pages. *)
Definition broken_data : string := Eval cbv in Str.quoted "{'file_list': oops}".
Definition empty_data : string := Eval cbv in Str.quoted "{'file_list':[],'sign':'xyz'}".

(** ** The first match of a pattern *)

(** The first character of [s] is of the class. *)
Definition head_in (cls : ascii -> bool) (s : string) : bool :=
  match s with
  | String c _ => cls c
  | EmptyString => false
  end.

(** [lit] followed by a character of the class occurs in [s], after [pre]. *)
Definition occurs_after (lit : string) (cls : ascii -> bool) (s pre : string) : Prop :=
  exists c post, s = pre ++ lit ++ String c post /\ cls c = true.

(** [t] is the token of the first match of [lit] followed by one or more
    characters of the class: the match is the leftmost one, and [t] is the
    longest run of such characters after [lit]. *)
Definition first_token (lit : string) (cls : ascii -> bool) (s t : string) : Prop :=
  exists pre post,
    s = pre ++ lit ++ t ++ post
    /\ t <> EmptyString
    /\ Str.forallb cls t = true
    /\ head_in cls post = false
    /\ forall pre', occurs_after lit cls s pre' ->
                    (String.length pre <= String.length pre')%nat.

(** The pattern matches nowhere in [s]. *)
Definition no_token (lit : string) (cls : ascii -> bool) (s : string) : Prop :=
  forall pre, ~ occurs_after lit cls s pre.

(** ** The links *)

(** A random integer as a link shows it. *)
Definition shown (r : Z) : string := Num.to_string (Num.of_Z r).

(** The template of the direct link, on the download host: the identifier
    of the file, the composite [fid], the timestamp as [dstime], the sign,
    and the log and correlation identifiers. *)
Definition direct_link (fs_id : string) (r1 r2 : Z) (dstime sign : string)
  (logid r : Z) : string :=
  "https://d.1024tera.com/file/" ++ fs_id
  ++ "?fid=" ++ fs_id ++ "-" ++ shown r1 ++ "-" ++ shown r2
  ++ "&dstime=" ++ dstime ++ "&rt=sh&sign=" ++ sign
  ++ "&expires=8h&chkv=0&chkbd=0&chkpc=&dp-logid=" ++ shown logid
  ++ "&dp-callid=0&r=" ++ shown r ++ "&sh=1&region=jp".

(** What the four thumbnail links share, up to the size parameter. *)
Definition thumbnail_prefix (fs_id : string) (r1 r2 : Z) (time sign : string)
  (logid : Z) : string :=
  "https://data.1024tera.com/thumbnail/" ++ fs_id
  ++ "?fid=" ++ fs_id ++ "-" ++ shown r1 ++ "-" ++ shown r2
  ++ "&time=" ++ time ++ "&rt=sh&sign=" ++ sign
  ++ "&expires=8h&chkv=0&chkbd=0&chkpc=&dp-logid=" ++ shown logid
  ++ "&dp-callid=0".

(** A thumbnail link: the shared prefix, the size, the file type. *)
Definition thumbnail_link (shared : string) (width height : Z) (ft : string) : string :=
  shared ++ "&size=c" ++ shown width ++ "_u" ++ shown height
  ++ "&quality=100&vuk=-&ft=" ++ ft.

(** The thumbnail map: the four presets. *)
Definition thumbnail_map (shared ft : string) : js_value :=
  JObj [("140x90", JStr (thumbnail_link shared 140 90 ft));
        ("360x270", JStr (thumbnail_link shared 360 270 ft));
        ("60x60", JStr (thumbnail_link shared 60 60 ft));
        ("850x580", JStr (thumbnail_link shared 850 580 ft))].

(** The category of a record is the number [code]. *)
Definition category_is (category : js_value) (code : Z) : Prop :=
  category = JNum (Num.of_Z code).

(** The record of the end-to-end scenario, and its context. *)
Definition movie_record : js_value :=
  JObj [("server_filename", JStr "movie.mp4");
        ("size", JNum (Num.of_Z 1073741824));
        ("fs_id", JNum (Num.of_Z 12345));
        ("category", JNum (Num.of_Z 1))].

(** A record of category 2, neither a video nor an image. *)
Definition other_record : js_value :=
  JObj [("server_filename", JStr "notes.txt");
        ("size", JNum (Num.of_Z 1536));
        ("fs_id", JNum (Num.of_Z 777));
        ("category", JNum (Num.of_Z 2))].

(** ** The normalizer, after the specification *)

(** The host without a leading [www.] prefix. *)
Definition strip_leading_www (host : string) : string :=
  if Str.startsWith host "www." then Str.drop 4 host else host.

(** The host, its leading [www.] stripped, contains a domain of the list. *)
Definition recognized_host (host : string) : bool :=
  existsb (fun validDomain => Str.includes (strip_leading_www host) validDomain)
    validDomains.

(** The normalizer of the specification: invalid when the string does not
    parse as a URL or its host is not recognized, the string otherwise. *)
Definition normalize_specified (P : Platform) (url : string) : option string :=
  match URL_hostname P url with
  | None => None
  | Some host => if recognized_host host then Some url else None
  end.

(** ** Vocabulary of the further properties *)

(** A character that is no semicolon, line feed or carriage return. *)
Definition plain_char (c : ascii) : bool :=
  negb (Ascii.eqb c ";") && negb (Regex.code c =? 10)%N && negb (Regex.code c =? 13)%N.

(** A text on one line: it holds no semicolon and no line terminator, LF,
    CR, U+2028 or U+2029; the dot of a regular expression matches each of
    its characters. *)
Fixpoint one_line (s : string) : bool :=
  match s with
  | EmptyString => true
  | String c s' =>
      negb (Ascii.eqb c ";") && negb (Regex.line_terminator_here s) && one_line s'
  end.

(** The literal the page data is searched after. *)
Definition yunData_marker : string := "window.yunData = ".

(** A page whose data holds a right single quotation mark, U+2019, whose
    first byte is the one a line separator starts with. *)
Definition quotation_page : string :=
  "<script>window.yunData = {'title':'it’s'};</script>".

(** A character that is not the letter w. *)
Definition not_w (c : ascii) : bool := negb (Ascii.eqb c "w").

(** The file info that [extractFileInfoFromPage] builds: the four fields,
    a title that is truthy, a direct link on the download host, and for
    the thumbnails [null] or the map of the four presets. *)
Definition file_info_record (v : js_value) : Prop :=
  exists title size directLink thumbnails,
    v = JObj [("title", title); ("size", JStr size);
              ("directLink", JStr directLink); ("thumbnails", thumbnails)]
    /\ JS.truthy title = true
    /\ Str.startsWith directLink "https://d.1024tera.com/file/" = true
    /\ (thumbnails = JNull \/ exists shared ft, thumbnails = thumbnail_map shared ft).

(** The rest of the [try] block of [extractFileInfoFromPage], once the
    first file is taken: what it builds from the file and the data. *)
Definition fileInfoOf (P : Platform) (fileInfo yunData : js_value) : M js_value :=
  bindM (lift (JS.get yunData "server")) (fun srv =>
  let server := JS.or_else srv (JStr EmptyString) in
  bindM (lift (JS.get yunData "sign")) (fun sgn =>
  let sign := JS.or_else sgn (JStr EmptyString) in
  bindM (lift (JS.get yunData "timestamp")) (fun ts =>
  let timestamp := JS.or_else ts (JStr EmptyString) in
  bindM (createDirectLink P fileInfo server sign timestamp) (fun directLink =>
  bindM (lift (JS.get fileInfo "server_filename")) (fun server_filename =>
  bindM (lift (JS.get fileInfo "size")) (fun size =>
  bindM (lift (formatSize P (JS.or_else size (JNum (Num.of_Z 0))))) (fun formatted =>
  bindM (generateThumbnailUrls P fileInfo server sign timestamp) (fun thumbnails =>
  ret (JObj [("title", JS.or_else server_filename (JStr "Unknown"));
             ("size", JStr formatted);
             ("directLink", JStr directLink);
             ("thumbnails", thumbnails)]))))))))).

(** The data of a share of two files, and of its first file alone with
    the keys in another order. *)
Definition two_files_data : string := Eval cbv in Str.quoted
  "{'sign':'xyz','file_list':[{'server_filename':'a.txt','size':1536,'fs_id':1,'category':6},{'server_filename':'b.mp4','size':9,'fs_id':2,'category':1}],'uk':7}".
Definition first_file_data : string := Eval cbv in Str.quoted
  "{'file_list':[{'server_filename':'a.txt','size':1536,'fs_id':1,'category':6}],'sign':'xyz'}".

(** The response of a successful extraction, field by field. *)
Definition success_response (title : js_value) (size directLink : string)
  (thumbnails : js_value) (shortLink : string) : js_value :=
  JObj [("status", JStr "✅ Success");
        ("📋 Extracted Info",
         JArr [JObj [("📄 Title", title);
                     ("📦 Size", JStr size);
                     ("🔗 Direct Download Link", JStr directLink);
                     ("🖼️ Thumbnails", thumbnails)]]);
        ("🔗 ShortLink", JStr shortLink)].

(** The data of a share whose file has an identifier, an empty name and
    the size zero. *)
Definition bare_file_data : string := Eval cbv in Str.quoted
  "{'server':'s1','file_list':[{'fs_id':5,'server_filename':'','size':0}]}".

(** * Properties *)

(** ** The rounding of binary64 *)

Module NumFacts.

Lemma round_half_even_nonneg (num den : Z) :
  0 <= num -> 0 < den -> 0 <= Num.round_half_even num den.
Proof.
  intros Hn Hd. unfold Num.round_half_even.
  assert (0 <= num / den) by (apply Z.div_pos; lia).
  destruct (2 * (num mod den) <? den); [lia |].
  destruct (den <? 2 * (num mod den)); [lia |].
  destruct (Z.even (num / den)); lia.
Qed.

(** Rounding moves a quotient by half a unit at most. *)
Lemma round_half_even_upper (num den : Z) :
  0 < den -> 2 * Num.round_half_even num den * den <= 2 * num + den.
Proof.
  intros Hd. unfold Num.round_half_even.
  pose proof (Z.div_mod num den ltac:(lia)) as Hdm.
  pose proof (Z.mod_pos_bound num den Hd) as Hr.
  destruct (Z.ltb_spec (2 * (num mod den)) den); [nia |].
  destruct (Z.ltb_spec den (2 * (num mod den))); [nia |].
  destruct (Z.even (num / den)); nia.
Qed.

(** The exponent taken for a quotient is not above it. *)
Lemma exponent_lower (p q : Z) :
  0 < p -> 0 < q ->
  let e0 := Z.log2 p - Z.log2 q in
  let e := if Num.at_least_pow2 p q e0 then e0 else e0 - 1 in
  0 <= e -> q * 2 ^ e <= p.
Proof.
  intros Hp Hq e0 e He. subst e.
  destruct (Num.at_least_pow2 p q e0) eqn:Hat.
  - unfold Num.at_least_pow2 in Hat.
    destruct (Z.leb_spec 0 e0); [| lia]. now apply Z.leb_le in Hat.
  - pose proof (Z.log2_spec p Hp) as [Hlp _].
    pose proof (Z.log2_spec q Hq) as [_ Hlq].
    pose proof (Z.log2_nonneg p). pose proof (Z.log2_nonneg q).
    assert (Hpow : 2 ^ Z.log2 p = 2 ^ Z.succ (Z.log2 q) * 2 ^ (e0 - 1)).
    { rewrite <- Z.pow_add_r by lia. f_equal. unfold e0. lia. }
    assert (0 < 2 ^ (e0 - 1)) by (apply Z.pow_pos_nonneg; lia).
    nia.
Qed.

(** The floor of a draw of [[0, 1)] times an integer bound is below the
    bound, rounding included. *)
Lemma floor_binary64_range (a b bound : Z) :
  0 <= a -> 0 < b -> a * 2 ^ 53 <= (2 ^ 53 - 1) * b ->
  2 <= bound < 2 ^ 53 ->
  0 <= Num.floor_binary64 (a * bound) b < bound.
Proof.
  intros Ha Hb Hunit [Hlow Hhigh]. unfold Num.floor_binary64.
  destruct (Z.leb_spec (a * bound) 0) as [Hzero | Hpos]; [lia |].
  set (p := a * bound) in *.
  set (e0 := Z.log2 p - Z.log2 b).
  set (e := if Num.at_least_pow2 p b e0 then e0 else e0 - 1).
  pose proof (exponent_lower p b Hpos Hb) as Hexp. cbv zeta in Hexp. fold e0 e in Hexp.
  assert (Hab : a < b) by lia.
  assert (Hpb : p < b * bound) by (unfold p; nia).
  assert (He52 : e <= 52).
  { destruct (Z.le_gt_cases e 52) as [H | H]; [exact H | exfalso].
    specialize (Hexp ltac:(lia)).
    assert (2 ^ 53 <= 2 ^ e) by (apply Z.pow_le_mono_r; lia). nia. }
  destruct (Z.leb_spec 0 (52 - e)) as [Hs | Hs]; [| lia].
  set (s := 52 - e) in *.
  assert (Hps : 0 < 2 ^ s) by (apply Z.pow_pos_nonneg; lia).
  set (m := Num.round_half_even (p * 2 ^ s) b).
  pose proof (round_half_even_nonneg (p * 2 ^ s) b ltac:(nia) Hb) as Hm0.
  pose proof (round_half_even_upper (p * 2 ^ s) b Hb) as Hm. fold m in Hm0, Hm.
  split; [apply Z.div_pos; lia |].
  apply Z.div_lt_upper_bound; [lia |].
  destruct (Z.lt_ge_cases m (2 ^ s * bound)) as [H | H]; [exact H | exfalso].
  assert (H1 : 2 * 2 ^ s * (bound * b - p) <= b) by nia.
  assert (H2 : b <= 2 ^ 53 * (b - a)) by lia.
  assert (H3 : bound * b - p = bound * (b - a)) by (unfold p; lia).
  assert (H4 : 2 * 2 ^ s * bound <= 2 ^ 53).
  { rewrite H3 in H1. assert (0 < b - a) by lia. nia. }
  assert (He1 : 1 <= e).
  { destruct (Z.le_gt_cases 1 e) as [H' | H']; [exact H' | exfalso].
    assert (2 ^ 52 <= 2 ^ s) by (apply Z.pow_le_mono_r; unfold s; lia). nia. }
  specialize (Hexp ltac:(lia)).
  assert (H5 : 2 ^ 53 = 2 * 2 ^ s * 2 ^ e).
  { replace 53 with (1 + s + e) by (unfold s; lia).
    rewrite !Z.pow_add_r by lia. lia. }
  assert (0 < 2 ^ e) by (apply Z.pow_pos_nonneg; lia).
  assert (bound <= 2 ^ e) by nia.
  nia.
Qed.

End NumFacts.
Section Shapes.

Variable P : Platform.

Lemma formatResponse_success (fileInfo : js_value) (shortLink : string) :
  JS.truthy fileInfo = true ->
  exists v, formatResponse fileInfo shortLink = Normal v /\ success_result v.
Proof.
  intros Htruthy.
  destruct fileInfo; simpl in Htruthy; try discriminate;
    unfold formatResponse;
    repeat match goal with
           | |- context [JS.get ?o ?k] =>
               let v := fresh "v" in
               destruct (JS.get o k) as [v|] eqn:?; [simpl | discriminate]
           end;
    try (eexists; split; [reflexivity | do 2 eexists; reflexivity]).
Qed.

(** [extractTeraBoxInfo] resolves, and to one of the two shapes. *)
Lemma extractTeraBoxInfo_shape (url : string) (n : nat) :
  exists v n', extractTeraBoxInfo P url n = (Normal v, n')
               /\ (failure_result v \/ success_result v).
Proof.
  unfold extractTeraBoxInfo, try_catch, bindM, lift, ret.
  destruct (normalizeTeraBoxUrl P url) as [normalizedUrl|].
  2: { do 2 eexists; split; [reflexivity | left; eexists; reflexivity]. }
  destruct (axios_get P normalizedUrl) as [data|e].
  2: { do 2 eexists; split; [reflexivity | left; eexists; reflexivity]. }
  destruct (extractFileId normalizedUrl data) as [fileId|].
  2: { do 2 eexists; split; [reflexivity | left; eexists; reflexivity]. }
  destruct (extractFileInfoFromPage P data n) as [[fileInfo|e] n'].
  2: { do 2 eexists; split; [reflexivity | left; eexists; reflexivity]. }
  destruct (JS.truthy fileInfo) eqn:Htruthy; cbn [negb generateShortLink].
  - destruct (formatResponse_success fileInfo ("https://1024terabox.com/s/" ++ fileId) Htruthy)
      as (v & Hv & Hs).
    rewrite Hv. do 2 eexists; split; [reflexivity | right; exact Hs].
  - do 2 eexists; split; [reflexivity | left; eexists; reflexivity].
Qed.

Lemma failure_status (v : js_value) :
  failure_result v ->
  exists msg, v = status_only ("❌ Error: " ++ msg)
              /\ status_of v = Some ("❌ Error: " ++ msg).
Proof. intros [msg ->]. exists msg. split; reflexivity. Qed.

Lemma success_status (v : js_value) :
  success_result v -> status_of v = Some "✅ Success".
Proof. intros (info & link & ->). reflexivity. Qed.

End Shapes.

(** ** The result of an extraction *)

(** C9: for every URL and every outcome of the fetch, [extractTeraBoxInfo]
    resolves, never rejects, to an object whose [status] is a string; the
    object is either the whole success shape, or holds the status and
    nothing else. *)
Theorem extractTeraBoxInfo_resolves_with_status
  (P : Platform) (url : string) (n : nat) :
  exists v n' s,
    extractTeraBoxInfo P url n = (Normal v, n')
    /\ JS.get v "status" = Normal (JStr s)
    /\ ((s = "✅ Success" /\ success_result v)
        \/ (Str.startsWith s "✅" = false /\ v = status_only s)).
Proof.
  destruct (extractTeraBoxInfo_shape P url n) as (v & n' & Hrun & [Hf | Hs]).
  - destruct Hf as [msg ->].
    exists (status_only ("❌ Error: " ++ msg)), n', ("❌ Error: " ++ msg).
    split; [exact Hrun | split; [reflexivity | right; split; reflexivity]].
  - pose proof Hs as (info & link & ->).
    do 2 eexists. exists "✅ Success".
    split; [exact Hrun | split; [reflexivity | left; split; [reflexivity | exact Hs]]].
Qed.

(** C10: the status of every result is the success marker itself or begins
    with the error mark. *)
Theorem status_is_success_or_error (P : Platform) (url : string) (n : nat) :
  exists v n' s,
    extractTeraBoxInfo P url n = (Normal v, n')
    /\ status_of v = Some s
    /\ (s = "✅ Success" \/ Str.startsWith s "❌ Error:" = true).
Proof.
  destruct (extractTeraBoxInfo_shape P url n) as (v & n' & Hrun & [Hf | Hs]).
  - destruct (failure_status v Hf) as (msg & -> & Hst).
    do 3 eexists. split; [exact Hrun | split; [exact Hst | right; reflexivity]].
  - do 3 eexists. split; [exact Hrun | split; [exact (success_status v Hs) | now left]].
Qed.

(** ** The short link *)

(** C8: the short link is the fixed template around the identifier, whatever
    the original URL; the function takes nothing from the platform, so it
    makes no network call, and it always resolves. *)
Theorem generateShortLink_template (originalUrl fileId : string) :
  fileId <> EmptyString ->
  generateShortLink originalUrl fileId
  = Normal ("https://1024terabox.com/s/" ++ fileId)
  /\ forall otherUrl,
       generateShortLink otherUrl fileId = generateShortLink originalUrl fileId.
Proof. intros _. split; [reflexivity | intros; reflexivity]. Qed.

(** The identifier of the scenario. *)
Lemma generateShortLink_1AbcDefGh :
  "1AbcDefGh" <> EmptyString
  /\ generateShortLink "https://terabox.com/s/1AbcDefGh" "1AbcDefGh"
     = Normal "https://1024terabox.com/s/1AbcDefGh".
Proof.
  split; [discriminate |].
  exact (proj1 (generateShortLink_template "https://terabox.com/s/1AbcDefGh"
                  "1AbcDefGh" ltac:(discriminate))).
Defined.

(** ** The failures of the page data parser *)

Section Parser.

Variable P : Platform.

Lemma parse_empty_throws : exists e, JSON.parse EmptyString = Throw e.
Proof. eexists. reflexivity. Qed.

(** Whatever the kind of the failure, the parser returns [null]. *)
Lemma extractFileInfoFromPage_null (kind : error_kind) (pageContent : string) (n : nat) :
  fails_with kind pageContent ->
  extractFileInfoFromPage P pageContent n = (Normal JNull, n).
Proof.
  unfold extractFileInfoFromPage.
  destruct kind; cbn [fails_with].
  - intros ->. reflexivity.
  - intros (data & e & -> & Hparse).
    destruct (Str.is_empty data); [reflexivity |].
    unfold try_catch, fileInfoFromData, bindM, lift. rewrite Hparse. reflexivity.
  - intros (data & yunData & file_list & -> & Hparse & Hget & Hlist).
    destruct (Str.is_empty data); [reflexivity |].
    unfold try_catch, fileInfoFromData, bindM, lift. rewrite Hparse, Hget.
    destruct Hlist as [-> | ->]; reflexivity.
Qed.

End Parser.

(** C1, as the code has it: the parser fails in each of the three ways by
    returning [null], and the caller reports each of them with the one
    status [no_file_info]; the kind of the failure does not show in the
    result. *)
Theorem page_data_failures_share_one_status
  (P : Platform) (kind : error_kind) (url pageContent fileId : string) (n : nat) :
  fails_with kind pageContent ->
  normalizeTeraBoxUrl P url = Some url ->
  axios_get P url = Normal pageContent ->
  extractFileId url pageContent = Some fileId ->
  extractFileInfoFromPage P pageContent n = (Normal JNull, n)
  /\ extractTeraBoxInfo P url n = (Normal (status_only no_file_info), n).
Proof.
  intros Hkind Hurl Hfetch Hid.
  pose proof (extractFileInfoFromPage_null P kind pageContent n Hkind) as Hnull.
  split; [exact Hnull |].
  unfold extractTeraBoxInfo, try_catch, bindM, lift.
  rewrite Hurl, Hfetch, Hid, Hnull. reflexivity.
Qed.

Lemma broken_page_invalid : fails_with PageDataInvalid Sample.broken_page.
Proof.
  exists broken_data, (Error "Unexpected token in JSON").
  split; vm_compute; reflexivity.
Qed.

Lemma empty_page_empty : fails_with EmptyFileList Sample.empty_page.
Proof.
  exists empty_data, (JObj [("file_list", JArr []); ("sign", JStr "xyz")]), (JArr []).
  split; [vm_compute; reflexivity |].
  split; [vm_compute; reflexivity |].
  split; [reflexivity | right; reflexivity].
Qed.

(** The page whose assignment does not decode. *)
Lemma page_data_failures_share_one_status_sample :
  extractTeraBoxInfo Sample.platform "https://terabox.com/s/broken" 0%nat
  = (Normal (status_only no_file_info), 0%nat).
Proof.
  refine (proj2 (page_data_failures_share_one_status Sample.platform PageDataInvalid
                   "https://terabox.com/s/broken" Sample.broken_page "broken" 0%nat
                   _ _ _ _)).
  - exists broken_data, (Error "Unexpected token in JSON").
    split; vm_compute; reflexivity.
  - vm_compute; reflexivity.
  - vm_compute; reflexivity.
  - vm_compute; reflexivity.
Defined.

(** C1, against the claim as it is written: a page without the assignment,
    a page whose assignment does not decode and a page with an empty file
    list fail with the three kinds, and the caller gets the same result for
    the three. *)
Lemma page_data_failures_indistinguishable :
  fails_with PageDataNotFound Sample.plain_page
  /\ fails_with PageDataInvalid Sample.broken_page
  /\ fails_with EmptyFileList Sample.empty_page
  /\ fst (extractTeraBoxInfo Sample.platform "https://terabox.com/s/plain" 0%nat)
     = Normal (status_only no_file_info)
  /\ fst (extractTeraBoxInfo Sample.platform "https://terabox.com/s/broken" 0%nat)
     = Normal (status_only no_file_info)
  /\ fst (extractTeraBoxInfo Sample.platform "https://terabox.com/s/empty" 0%nat)
     = Normal (status_only no_file_info).
Proof.
  split; [vm_compute; reflexivity |].
  split; [exact broken_page_invalid |].
  split; [exact empty_page_empty |].
  repeat split; vm_compute; reflexivity.
Qed.

(** ** The status code of the endpoint *)

Section Handler.

Variable P : Platform.

(** The handler answers a result of one of the two shapes with 200 or 400,
    by the marker test on its status. *)
Lemma status_includes_Success_shape (v : js_value) :
  failure_result v \/ success_result v ->
  exists s, status_of v = Some s
            /\ status_includes_Success v = Normal (Str.includes s "Success").
Proof.
  intros [[msg ->] | (info & link & ->)]; eexists; split; reflexivity.
Qed.

Lemma status_of_status_only (s : string) : status_of (status_only s) = Some s.
Proof. reflexivity. Qed.

(** What a thrown fetch becomes. *)
Lemma extractTeraBoxInfo_fetch_throws (url : string) (e : js_error) (n : nat) :
  normalizeTeraBoxUrl P url = Some url ->
  axios_get P url = Throw e ->
  extractTeraBoxInfo P url n
  = (Normal (status_only ("❌ Error: " ++ message_or e "Failed to extract information")), n).
Proof.
  intros Hurl Hfetch. unfold extractTeraBoxInfo, try_catch, bindM, lift.
  rewrite Hurl, Hfetch. reflexivity.
Qed.

Lemma normalizeTeraBoxUrl_unchanged (url normalizedUrl : string) :
  normalizeTeraBoxUrl P url = Some normalizedUrl -> normalizedUrl = url.
Proof.
  unfold normalizeTeraBoxUrl.
  destruct (Str.is_empty url); [discriminate |].
  destruct (URL_hostname P url); [| discriminate].
  destruct (negb _); [discriminate |].
  destruct (Str.includes url "/s/"); intros [= <-]; reflexivity.
Qed.

(** What an exception thrown while the data of the page is read becomes. *)
Lemma extractTeraBoxInfo_parser_throws
  (url pageContent fileId data : string) (e : js_error) (n m : nat) :
  normalizeTeraBoxUrl P url = Some url ->
  axios_get P url = Normal pageContent ->
  extractFileId url pageContent = Some fileId ->
  dataMatch pageContent = Some data ->
  data <> EmptyString ->
  fileInfoFromData P data n = (Throw e, m) ->
  extractTeraBoxInfo P url n = (Normal (status_only no_file_info), m).
Proof.
  intros Hurl Hfetch Hid Hdata Hne Hthrow.
  unfold extractTeraBoxInfo, try_catch, bindM, lift.
  rewrite Hurl, Hfetch. cbv beta iota. rewrite Hid.
  unfold extractFileInfoFromPage. rewrite Hdata.
  destruct data as [|c data']; [congruence |]. cbn [Str.is_empty].
  unfold try_catch. rewrite Hthrow. reflexivity.
Qed.

(** The handler once the middleware has let a GET request through. *)
Lemma handler_GET (url : option string) :
  handler P "GET" url
  = match url with
    | None | Some EmptyString =>
        ret {| statusCode := 400; allow := None;
               body := status_only "❌ Error: Missing URL parameter" |}
    | Some u =>
        try_catch
          (bindM (extractTeraBoxInfo P u) (fun result =>
           bindM (lift (status_includes_Success result)) (fun ok =>
           ret {| statusCode := if ok then 200 else 400; allow := None;
                  body := result |})))
          (fun error =>
             ret {| statusCode := 500; allow := None;
                    body := status_only
                              ("❌ Error: " ++ message_or error "Internal server error") |})
    end.
Proof. reflexivity. Qed.

(** The answer to a GET request with a URL. *)
Lemma handler_GET_url (u : string) (n : nat) :
  u <> EmptyString ->
  exists v n' s,
    extractTeraBoxInfo P u n = (Normal v, n')
    /\ (failure_result v \/ success_result v)
    /\ status_of v = Some s
    /\ handler P "GET" (Some u) n
       = (Normal {| statusCode := if Str.includes s "Success" then 200 else 400;
                    allow := None; body := v |}, n').
Proof.
  intros Hu.
  destruct (extractTeraBoxInfo_shape P u n) as (v & n' & Hrun & Hshape).
  destruct (status_includes_Success_shape v Hshape) as (s & Hs & Hincl).
  exists v, n', s. repeat split; try assumption.
  rewrite handler_GET. destruct u as [|c u']; [congruence |].
  unfold try_catch, bindM, lift. rewrite Hrun. cbv beta iota.
  rewrite Hincl. reflexivity.
Qed.

End Handler.

(** C3, as the code has it: a GET request with a url parameter is answered
    with the result of the extraction, with 200 when the status of the
    result contains the marker [Success] and with 400 when it does not, and
    never with 500.  No exception reaches the handler: one thrown by the
    fetch is caught by [extractTeraBoxInfo] and becomes the status made of
    its message, answered by the same test; one thrown while the data of
    the page is read is caught by [extractFileInfoFromPage] and becomes the
    failure to extract the file info, answered with 400. *)
Theorem handler_status_code (P : Platform) (url : string) (n : nat) :
  url <> EmptyString ->
  exists result s r n',
    extractTeraBoxInfo P url n = (Normal result, n')
    /\ status_of result = Some s
    /\ handler P "GET" (Some url) n = (Normal r, n')
    /\ body r = result
    /\ statusCode r = (if Str.includes s "Success" then 200 else 400)
    /\ statusCode r <> 500
    /\ (forall e, normalizeTeraBoxUrl P url = Some url ->
                  axios_get P url = Throw e ->
                  s = "❌ Error: " ++ message_or e "Failed to extract information"
                  /\ statusCode r
                     = (if Str.includes (message e) "Success" then 200 else 400))
    /\ (forall pageContent fileId data e m,
          normalizeTeraBoxUrl P url = Some url ->
          axios_get P url = Normal pageContent ->
          extractFileId url pageContent = Some fileId ->
          dataMatch pageContent = Some data ->
          data <> EmptyString ->
          fileInfoFromData P data n = (Throw e, m) ->
          s = no_file_info /\ statusCode r = 400).
Proof.
  intros Hurl.
  destruct (handler_GET_url P url n Hurl) as (v & n' & s & Hrun & Hshape & Hs & Hh).
  exists v, s.
  eexists {| statusCode := if Str.includes s "Success" then 200 else 400;
             allow := None; body := v |}, n'.
  split; [exact Hrun |]. split; [exact Hs |]. split; [exact Hh |].
  split; [reflexivity |]. split; [reflexivity |].
  cbn [statusCode].
  split; [destruct (Str.includes s "Success"); discriminate |].
  split.
  - intros e Hn Hf.
    rewrite (extractTeraBoxInfo_fetch_throws P url e n Hn Hf) in Hrun.
    injection Hrun as <- <-. rewrite status_of_status_only in Hs.
    injection Hs as <-. split; [reflexivity |].
    unfold message_or. destruct (message e); reflexivity.
  - intros pageContent fileId data e m Hn Hf Hid Hdata Hne Hthrow.
    rewrite (extractTeraBoxInfo_parser_throws P url pageContent fileId data e n m
               Hn Hf Hid Hdata Hne Hthrow) in Hrun.
    injection Hrun as <- <-. rewrite status_of_status_only in Hs.
    injection Hs as <-. split; reflexivity.
Qed.

(** The request of the scenario is answered with 200. *)
Lemma handler_status_code_sample :
  exists r,
    handler Sample.platform "GET" (Some "https://terabox.com/s/1AbcDefGh") 0%nat
    = (Normal r, 7%nat)
    /\ statusCode r = 200.
Proof.
  destruct (handler_status_code Sample.platform "https://terabox.com/s/1AbcDefGh" 0%nat
              ltac:(discriminate))
    as (result & s & r & n' & Hrun & Hs & Hhandler & _ & Hcode & _).
  exists r.
  assert (Hn : n' = 7%nat) by (vm_compute in Hrun; congruence).
  assert (Hst : s = "✅ Success").
  { vm_compute in Hrun. injection Hrun as <- _. vm_compute in Hs. congruence. }
  subst n' s. split; [exact Hhandler | exact Hcode].
Defined.

(** C3, against the claim as it is written.  Reading [file_list] of the
    data [null] throws inside the parser; the claim sends an unexpected
    exception to 500, the endpoint answers 400.  A fetch that fails with a
    message that contains [Success] is a recognized failure, and its status
    does not hold the success marker; the claim sends it to 400, the
    endpoint answers 200. *)
Lemma handler_exception_not_500 :
  dataMatch null_page = Some "null"
  /\ (exists e, fileInfoFromData (serving_platform null_page) "null" 0%nat
                = (Throw e, 0%nat))
  /\ fst (handler (serving_platform null_page) "GET"
            (Some "https://terabox.com/s/1AbcDefGh") 0%nat)
     = Normal {| statusCode := 400; allow := None;
                 body := status_only "❌ Error: Could not extract file info" |}
  /\ axios_get (failing_platform (Error "Success rate limit reached"))
       "https://terabox.com/s/1AbcDefGh"
     = Throw (Error "Success rate limit reached")
  /\ fst (handler (failing_platform (Error "Success rate limit reached")) "GET"
            (Some "https://terabox.com/s/1AbcDefGh") 0%nat)
     = Normal {| statusCode := 200; allow := None;
                 body := status_only "❌ Error: Success rate limit reached" |}
  /\ Str.includes "❌ Error: Success rate limit reached" "✅ Success" = false.
Proof.
  split; [vm_compute; reflexivity |].
  split; [eexists; vm_compute; reflexivity |].
  split; [vm_compute; reflexivity |].
  split; [vm_compute; reflexivity |].
  split; vm_compute; reflexivity.
Qed.

(** ** The identifier *)

Module RegexFacts.

Lemma startsWith_app (p r : string) : Str.startsWith (p ++ r) p = true.
Proof.
  unfold Str.startsWith. induction p as [|a p IH]; simpl.
  - destruct r; reflexivity.
  - destruct (ascii_dec a a); [exact IH | congruence].
Qed.

Lemma startsWith_split (s p : string) :
  Str.startsWith s p = true -> s = p ++ Str.drop (String.length p) s.
Proof.
  unfold Str.startsWith. revert s. induction p as [|a p IH]; intros s H; simpl.
  - reflexivity.
  - destruct s as [|b s]; simpl in H; [discriminate |].
    destruct (ascii_dec a b); [subst b | discriminate].
    f_equal. apply IH. exact H.
Qed.

Lemma drop_app (p r : string) : Str.drop (String.length p) (p ++ r) = r.
Proof. induction p; simpl; auto. Qed.

Lemma app_assoc (a b c : string) : (a ++ b) ++ c = a ++ b ++ c.
Proof. induction a; simpl; congruence. Qed.

Lemma app_inv_head (p a b : string) : p ++ a = p ++ b -> a = b.
Proof. induction p; simpl; intros H; [exact H | injection H; auto]. Qed.

Lemma take_while_run (cls : ascii -> bool) (t post : string) :
  Str.forallb cls t = true -> head_in cls post = false ->
  Str.take_while cls (t ++ post) = t.
Proof.
  intros Ht Hpost. induction t as [|c t IH]; simpl in *.
  - destruct post as [|d post]; simpl in *; [reflexivity | now rewrite Hpost].
  - apply andb_prop in Ht as [Hc Ht]. rewrite Hc. f_equal. auto.
Qed.

Lemma take_while_split (cls : ascii -> bool) (s : string) :
  exists post, s = Str.take_while cls s ++ post
               /\ Str.forallb cls (Str.take_while cls s) = true
               /\ head_in cls post = false.
Proof.
  induction s as [|c s (post & Hs & Hall & Hpost)]; simpl.
  - exists EmptyString. auto.
  - destruct (cls c) eqn:Hc.
    + exists post. simpl. rewrite Hc, Hall. repeat split; [congruence | exact Hpost].
    + exists (String c s). simpl. auto.
Qed.

(** The anchored match: what it returns. *)
Lemma token_here_Some (lit : string) (cls : ascii -> bool) (s t : string) :
  Regex.token_here lit cls s = Some t <->
  exists post, s = lit ++ t ++ post /\ t <> EmptyString
               /\ Str.forallb cls t = true /\ head_in cls post = false.
Proof.
  unfold Regex.token_here. split.
  - destruct (Str.startsWith s lit) eqn:Hp; [| discriminate].
    apply startsWith_split in Hp.
    destruct (take_while_split cls (Str.drop (String.length lit) s))
      as (post & Hs & Hall & Hpost).
    destruct (Str.take_while cls _) as [|c r] eqn:Ht; simpl; [discriminate |].
    intros [= <-]. exists post.
    split; [rewrite Hp at 1; now rewrite <- Hs |].
    split; [discriminate | split; assumption].
  - intros (post & -> & Hne & Hall & Hpost).
    rewrite startsWith_app, drop_app, (take_while_run cls t post Hall Hpost).
    destruct t; [congruence | reflexivity].
Qed.

(** The anchored match: when it fails. *)
Lemma token_here_None (lit : string) (cls : ascii -> bool) (s : string) :
  Regex.token_here lit cls s = None <-> ~ occurs_after lit cls s EmptyString.
Proof.
  split.
  - intros Hnone (c & post & Hs & Hc). simpl in Hs. subst s.
    unfold Regex.token_here in Hnone.
    rewrite startsWith_app, drop_app in Hnone. simpl in Hnone.
    rewrite Hc in Hnone. discriminate.
  - intros Hno. destruct (Regex.token_here lit cls s) as [t|] eqn:Ht; [| reflexivity].
    exfalso. apply Hno. apply token_here_Some in Ht as (post & -> & Hne & Hall & _).
    destruct t as [|c t]; [congruence |].
    simpl in Hall. apply andb_prop in Hall as [Hc _].
    exists c, (t ++ post). split; [reflexivity | exact Hc].
Qed.

Lemma occurs_after_cons (lit : string) (cls : ascii -> bool) (a : ascii) (s pre : string) :
  occurs_after lit cls (String a s) (String a pre) <-> occurs_after lit cls s pre.
Proof.
  unfold occurs_after. split; intros (c & post & H & Hc); exists c, post; split; auto.
  - simpl in H. now injection H.
  - simpl. now f_equal.
Qed.

Lemma occurs_after_head (lit : string) (cls : ascii -> bool) (a b : ascii) (s pre : string) :
  occurs_after lit cls (String a s) (String b pre) -> occurs_after lit cls s pre.
Proof.
  intros (c & post & H & Hc). simpl in H. injection H as -> H.
  exists c, post. auto.
Qed.

Lemma occurs_after_nil (lit : string) (cls : ascii -> bool) (pre : string) :
  occurs_after lit cls EmptyString pre -> pre = EmptyString.
Proof.
  intros (c & post & H & _). destruct pre; [reflexivity | discriminate].
Qed.

(** The search fails exactly when the pattern matches nowhere. *)
Lemma search_token_None (lit : string) (cls : ascii -> bool) (s : string) :
  Regex.search_token lit cls s = None <-> no_token lit cls s.
Proof.
  unfold no_token. induction s as [|a s IH]; simpl.
  - destruct (Regex.token_here lit cls EmptyString) as [t|] eqn:Ht.
    + split; [discriminate |]. intros H. exfalso.
      assert (Hn : Regex.token_here lit cls EmptyString = None)
        by (apply token_here_None, H).
      congruence.
    + split; [| reflexivity]. intros _ pre Hocc.
      pose proof (occurs_after_nil lit cls pre Hocc) as ->.
      now apply token_here_None in Ht.
  - destruct (Regex.token_here lit cls (String a s)) as [t|] eqn:Ht.
    + split; [discriminate |]. intros H. exfalso.
      assert (Hn : Regex.token_here lit cls (String a s) = None)
        by (apply token_here_None, H).
      congruence.
    + rewrite IH. apply token_here_None in Ht. split.
      * intros H [|b pre] Hocc; [now apply Ht |].
        apply (H pre). eapply occurs_after_head, Hocc.
      * intros H pre Hocc. apply (H (String a pre)). now apply occurs_after_cons.
Qed.

(** The search returns the token of the first match. *)
Lemma search_token_Some (lit : string) (cls : ascii -> bool) (s t : string) :
  Regex.search_token lit cls s = Some t <-> first_token lit cls s t.
Proof.
  unfold first_token. revert t. induction s as [|a s IH]; intros t; simpl.
  - destruct (Regex.token_here lit cls EmptyString) as [t'|] eqn:Ht.
    + apply token_here_Some in Ht as (post & Hs & Hne & Hall & Hpost). split.
      * intros [= <-]. exists EmptyString, post. repeat split; auto.
        intros; simpl; lia.
      * intros (pre & post' & Hs' & _).
        destruct pre; [| discriminate]. destruct lit; [| discriminate].
        simpl in Hs, Hs'. destruct t'; [| discriminate]. congruence.
    + split; [discriminate |]. intros (pre & post & Hs & Hne & Hall & Hpost & _).
      exfalso. apply token_here_None in Ht. apply Ht.
      destruct pre; [| discriminate]. destruct lit; [| discriminate].
      destruct t; [congruence | discriminate].
  - destruct (Regex.token_here lit cls (String a s)) as [t'|] eqn:Ht.
    + pose proof Ht as Ht'.
      apply token_here_Some in Ht as (post & Hs & Hne & Hall & Hpost). split.
      * intros [= <-]. exists EmptyString, post. repeat split; auto.
        intros; simpl; lia.
      * intros (pre & post' & Hs' & Hne' & Hall' & Hpost' & Hleft).
        assert (Hocc : occurs_after lit cls (String a s) EmptyString).
        { destruct t' as [|c t']; [congruence |].
          simpl in Hall. apply andb_prop in Hall as [Hc _].
          exists c, (t' ++ post). split; [exact Hs | exact Hc]. }
        apply Hleft in Hocc. destruct pre; [| simpl in Hocc; lia].
        f_equal. simpl in Hs'.
        assert (Hhere : Regex.token_here lit cls (String a s) = Some t).
        { apply token_here_Some. exists post'. auto. }
        congruence.
    + rewrite IH. pose proof Ht as Hnone. apply token_here_None in Ht. split.
      * intros (pre & post & Hs & Hne & Hall & Hpost & Hleft).
        exists (String a pre), post. simpl.
        repeat split; [now f_equal | auto .. |].
        intros [|b pre'] Hocc; [contradiction |].
        apply occurs_after_head in Hocc. apply Hleft in Hocc. simpl. lia.
      * intros (pre & post & Hs & Hne & Hall & Hpost & Hleft).
        destruct pre as [|b pre].
        -- exfalso.
           assert (Hhere : Regex.token_here lit cls (String a s) = Some t)
             by (apply token_here_Some; exists post; auto).
           congruence.
        -- simpl in Hs. injection Hs as <- Hs.
           exists pre, post. repeat split; auto.
           intros pre' Hocc. apply (occurs_after_cons lit cls a) in Hocc.
           apply Hleft in Hocc. simpl in Hocc. lia.
Qed.

(** The guard [url.includes(lit)] rules out no match. *)
Lemma search_token_includes (lit : string) (cls : ascii -> bool) (s : string) :
  Str.includes s lit = false -> Regex.search_token lit cls s = None.
Proof.
  induction s as [|a s IH]; intros H; cbn [Str.includes] in H;
    apply orb_false_iff in H as [Hp Hrest];
    cbn [Regex.search_token]; unfold Regex.token_here; rewrite Hp; auto.
Qed.

End RegexFacts.

Lemma extractFileId_eq (url pageContent : string) :
  extractFileId url pageContent
  = match Regex.search_token "/s/" Regex.token_char url with
    | Some token => Some token
    | None =>
        match Regex.search_token fs_id_marker Regex.digit pageContent with
        | Some fid => Some fid
        | None => Regex.search_token shareid_marker Regex.digit pageContent
        end
    end.
Proof.
  unfold extractFileId.
  destruct (Str.includes url "/s/") eqn:Hinc.
  - destruct (Regex.search_token "/s/" _ url); [reflexivity |].
    destruct (Regex.search_token fs_id_marker _ _); [reflexivity |].
    destruct (Regex.search_token shareid_marker _ _); reflexivity.
  - rewrite (RegexFacts.search_token_includes "/s/" Regex.token_char url Hinc).
    destruct (Regex.search_token fs_id_marker _ _); [reflexivity |].
    destruct (Regex.search_token shareid_marker _ _); reflexivity.
Qed.

(** C6: the identifier is the token of the first [/s/<token>] match in the
    URL; when the URL has none, the digits of the first [fs_id] match in the
    page; when the page has none either, the digits of the first [shareid]
    match; and the extractor fails only when none of the three patterns
    matches.  A URL with [/s/ABC123] gives [ABC123], whatever the page. *)
Theorem extractFileId_precedence (url pageContent : string) :
  (forall t, first_token "/s/" Regex.token_char url t ->
             extractFileId url pageContent = Some t)
  /\ (forall t, no_token "/s/" Regex.token_char url ->
                first_token fs_id_marker Regex.digit pageContent t ->
                extractFileId url pageContent = Some t)
  /\ (forall t, no_token "/s/" Regex.token_char url ->
                no_token fs_id_marker Regex.digit pageContent ->
                first_token shareid_marker Regex.digit pageContent t ->
                extractFileId url pageContent = Some t)
  /\ (extractFileId url pageContent = None <->
      no_token "/s/" Regex.token_char url
      /\ no_token fs_id_marker Regex.digit pageContent
      /\ no_token shareid_marker Regex.digit pageContent)
  /\ (forall rest, head_in Regex.token_char rest = false ->
                   extractFileId ("https://terabox.com/s/ABC123" ++ rest) pageContent
                   = Some "ABC123").
Proof.
  rewrite extractFileId_eq.
  split; [| split; [| split; [| split]]].
  - intros t Ha. apply RegexFacts.search_token_Some in Ha. now rewrite Ha.
  - intros t Ha Hb. apply RegexFacts.search_token_None in Ha.
    apply RegexFacts.search_token_Some in Hb. now rewrite Ha, Hb.
  - intros t Ha Hb Hc. apply RegexFacts.search_token_None in Ha, Hb.
    apply RegexFacts.search_token_Some in Hc. now rewrite Ha, Hb, Hc.
  - rewrite <- !RegexFacts.search_token_None.
    destruct (Regex.search_token "/s/" _ url); [intuition discriminate |].
    destruct (Regex.search_token fs_id_marker _ _); [intuition discriminate |].
    destruct (Regex.search_token shareid_marker _ _); intuition discriminate.
  - intros rest Hrest. rewrite extractFileId_eq.
    assert (Hfirst : first_token "/s/" Regex.token_char
                       ("https://terabox.com/s/ABC123" ++ rest) "ABC123").
    { exists "https://terabox.com", rest.
      split; [reflexivity |]. split; [discriminate |].
      split; [reflexivity |]. split; [exact Hrest |].
      intros pre (c & post & Hs & Hc).
      destruct (Nat.le_gt_cases (String.length "https://terabox.com") (String.length pre))
        as [Hle | Hlt]; [exact Hle | exfalso].
      do 19 (destruct pre as [|? pre];
             [simpl in Hs; injection Hs as Hs; repeat (injection Hs as ? Hs); subst;
              try discriminate; simpl in Hc; discriminate |
              simpl in Hs; injection Hs as <- Hs]).
      simpl in Hlt. lia. }
    apply RegexFacts.search_token_Some in Hfirst. now rewrite Hfirst.
Qed.

(** ** The links *)

Section Links.

Variable P : Platform.

Lemma includes_here (sub post : string) : Str.includes (sub ++ post) sub = true.
Proof.
  pose proof (RegexFacts.startsWith_app sub post) as H.
  destruct (sub ++ post); cbn [Str.includes]; rewrite H; reflexivity.
Qed.

Lemma includes_after (pre s sub : string) :
  Str.includes s sub = true -> Str.includes (pre ++ s) sub = true.
Proof.
  intros H. induction pre as [|a pre IH]; simpl; [exact H |].
  rewrite IH. apply orb_true_r.
Qed.

Lemma bindM_run {A B : Type} (c : M A) (k : A -> M B) (n n' : nat) (a : A) :
  c n = (Normal a, n') -> bindM c k n = k a n'.
Proof. unfold bindM. now intros ->. Qed.

Lemma interpolate_run (v : js_value) (s : string) (n : nat) :
  JS.to_string v = Normal s -> interpolate v n = (Normal s, n).
Proof. unfold interpolate, lift. now intros ->. Qed.

Lemma interpolate_property_run (o v : js_value) (key s : string) (n : nat) :
  JS.get o key = Normal v -> JS.to_string v = Normal s ->
  interpolate_property o key n = (Normal s, n).
Proof.
  intros Hget Hs. unfold interpolate_property.
  erewrite bindM_run by (unfold lift; rewrite Hget; reflexivity).
  now apply interpolate_run.
Qed.

Lemma random_digits_run (bound : Z) (n : nat) :
  random_digits P bound n = (Normal (shown (floor_draw P bound n)), S n).
Proof. reflexivity. Qed.

(** A draw is at most [1 - 2^-53]. *)
Lemma unit_draw_bound (d : Z * Z) :
  unit_draw d ->
  0 <= fst d /\ 0 < snd d /\ fst d * 2 ^ 53 <= (2 ^ 53 - 1) * snd d.
Proof.
  intros ((Hlo & Hhi) & Hpow & _ & Hlt).
  assert (Hpos : 0 < snd d)
    by (rewrite Hpow; apply Z.pow_pos_nonneg; [lia | apply Z.log2_nonneg]).
  repeat split; [lia | lia |].
  destruct (Z_le_gt_dec (snd d) (2 ^ 53)) as [Hb | Hb]; nia.
Qed.

Lemma random_floor_range (bound : Z) (n : nat) :
  random_in_unit_interval P -> 2 <= bound < 2 ^ 53 ->
  0 <= floor_draw P bound n < bound.
Proof.
  intros Hunit Hbound. unfold floor_draw.
  destruct (unit_draw_bound _ (Hunit n)) as (Ha & Hb & Hab).
  now apply NumFacts.floor_binary64_range.
Qed.

Lemma strict_eq_num_true (v : js_value) (code : Z) :
  JS.strict_eq_num v code = true <-> category_is v code.
Proof.
  unfold category_is, JS.strict_eq_num, Num.of_Z. split.
  - destruct v as [| | |x| | |]; try discriminate.
    destruct x as [| |m k]; try discriminate. simpl.
    intros H. apply andb_prop in H as [Hm Hk].
    apply Z.eqb_eq in Hm. apply Nat.eqb_eq in Hk. now subst.
  - intros ->. simpl. now rewrite Z.eqb_refl.
Qed.

End Links.

(** C7: the direct link is the template on the download host, filled with
    the identifier of the file, a [fid] made of the identifier and the
    floors of the first draw times 10000 and of the second draw times
    10000000000, which are integers of 0..9999 and 0..9999999999, the
    timestamp as [dstime], the sign, and as [dp-logid] and [r] the floors of
    the third draw times 10^14 and of the fourth draw times 10^9; four
    draws are consumed; the link contains the identifier and the sign. *)
Theorem createDirectLink_template
  (P : Platform) (fileInfo server sign timestamp fs_id : js_value)
  (file dstime sgn : string) (n : nat) :
  random_in_unit_interval P ->
  JS.get fileInfo "fs_id" = Normal fs_id ->
  JS.to_string fs_id = Normal file ->
  JS.to_string timestamp = Normal dstime ->
  JS.to_string sign = Normal sgn ->
  let draw := fun (bound : Z) (k : nat) =>
    Num.floor_binary64 (fst (Math_random P k) * bound) (snd (Math_random P k)) in
  let r1 := draw 10000 n in
  let r2 := draw 10000000000 (n + 1)%nat in
  let logid := draw 100000000000000 (n + 2)%nat in
  let r := draw 1000000000 (n + 3)%nat in
  createDirectLink P fileInfo server sign timestamp n
  = (Normal (direct_link file r1 r2 dstime sgn logid r), (n + 4)%nat)
  /\ 0 <= r1 <= 9999
  /\ 0 <= r2 <= 9999999999
  /\ 0 <= logid < 100000000000000
  /\ 0 <= r < 1000000000
  /\ Str.includes (direct_link file r1 r2 dstime sgn logid r) file = true
  /\ Str.includes (direct_link file r1 r2 dstime sgn logid r) sgn = true.
Proof.
  intros Hunit Hget Hfile Htime Hsign draw r1 r2 logid r.
  assert (Hrun : createDirectLink P fileInfo server sign timestamp n
                 = (Normal (direct_link file r1 r2 dstime sgn logid r),
                    (n + 4)%nat)).
  { unfold createDirectLink.
    do 2 (erewrite bindM_run by (eapply interpolate_property_run; eassumption)).
    do 2 (erewrite bindM_run by apply random_digits_run).
    do 2 (erewrite bindM_run by (eapply interpolate_run; eassumption)).
    do 2 (erewrite bindM_run by apply random_digits_run).
    unfold ret, direct_link, r1, r2, logid, r, draw, floor_draw.
    replace (n + 1)%nat with (S n) by lia.
    replace (n + 2)%nat with (S (S n)) by lia.
    replace (n + 3)%nat with (S (S (S n))) by lia.
    replace (n + 4)%nat with (S (S (S (S n)))) by lia.
    reflexivity. }
  split; [exact Hrun |].
  pose proof (random_floor_range P 10000 n Hunit ltac:(lia)).
  pose proof (random_floor_range P 10000000000 (n + 1) Hunit ltac:(lia)).
  pose proof (random_floor_range P 100000000000000 (n + 2) Hunit ltac:(lia)).
  pose proof (random_floor_range P 1000000000 (n + 3) Hunit ltac:(lia)).
  unfold floor_draw in *. unfold r1, r2, logid, r, draw.
  repeat (split; [lia |]).
  split.
  - unfold direct_link. apply includes_after, includes_here.
  - unfold direct_link. do 11 apply includes_after. apply includes_here.
Qed.

(** The record of the scenario, identifier 12345 and sign xyz, with the
    draws 1/2, 3/4, 1082208916029830/2^52 and 1 - 2^-52. *)
Lemma createDirectLink_movie :
  createDirectLink drawing_platform movie_record
    (JStr "s1") (JStr "xyz") (JStr "111") 0%nat
  = (Normal
       "https://d.1024tera.com/file/12345?fid=12345-5000-7500000000&dstime=111&rt=sh&sign=xyz&expires=8h&chkv=0&chkbd=0&chkpc=&dp-logid=24029865120619&dp-callid=0&r=999999999&sh=1&region=jp",
     4%nat)
  /\ (exists link,
        fst (createDirectLink drawing_platform movie_record
               (JStr "s1") (JStr "xyz") (JStr "111") 0%nat) = Normal link
        /\ Str.includes link "12345" = true
        /\ Str.includes link "xyz" = true).
Proof.
  assert (Hunit : random_in_unit_interval drawing_platform).
  { intros n. unfold drawing_platform, unit_draw. cbn [Math_random].
    destruct n as [|[|[|[|n]]]]; cbn [sample_draws fst snd];
      repeat split; vm_compute; first [reflexivity | discriminate]. }
  pose proof (createDirectLink_template drawing_platform movie_record
                (JStr "s1") (JStr "xyz") (JStr "111") (JNum (Num.of_Z 12345))
                "12345" "111" "xyz" 0%nat Hunit eq_refl eq_refl eq_refl eq_refl)
    as H.
  cbv zeta in H.
  destruct H as (Hrun & _ & _ & _ & _ & Hfile & Hsign).
  split.
  - rewrite Hrun. vm_compute. reflexivity.
  - eexists. rewrite Hrun. split; [reflexivity | split; eassumption].
Defined.

Section Thumbnails.

Variable P : Platform.

Lemma lift_get_run (o v : js_value) (key : string) (n : nat) :
  JS.get o key = Normal v -> lift (JS.get o key) n = (Normal v, n).
Proof. unfold lift. now intros ->. Qed.

Lemma thumbnail_eq (base params size ft : string) :
  thumbnail base params size ft
  = JStr ((base ++ params) ++ "&size=" ++ size ++ "&quality=100&vuk=-&ft=" ++ ft).
Proof. unfold thumbnail. now rewrite RegexFacts.app_assoc. Qed.

(** The result for a video or an image. *)
Lemma generateThumbnailUrls_map
  (fileInfo server sign timestamp category fs_id : js_value)
  (file time sgn : string) (n : nat) :
  JS.get fileInfo "category" = Normal category ->
  JS.strict_eq_num category 1 || JS.strict_eq_num category 3 = true ->
  JS.get fileInfo "fs_id" = Normal fs_id ->
  JS.to_string fs_id = Normal file ->
  JS.to_string timestamp = Normal time ->
  JS.to_string sign = Normal sgn ->
  exists r1 r2 logid,
    generateThumbnailUrls P fileInfo server sign timestamp n
    = (Normal (thumbnail_map (thumbnail_prefix file r1 r2 time sgn logid)
                 (if JS.strict_eq_num category 1 then "video" else "image")),
       (n + 3)%nat).
Proof.
  intros Hcat Hkind Hget Hfile Htime Hsign.
  exists (floor_draw P 10000 n), (floor_draw P 10000000000 (S n)),
         (floor_draw P 100000000000000 (S (S n))).
  unfold generateThumbnailUrls.
  do 2 (erewrite bindM_run by (eapply lift_get_run; eassumption)).
  replace (negb (JS.strict_eq_num category 1) && negb (JS.strict_eq_num category 3))
    with false by (rewrite <- negb_orb, Hkind; reflexivity).
  do 2 (erewrite bindM_run by (eapply interpolate_property_run; eassumption)).
  do 2 (erewrite bindM_run by apply random_digits_run).
  do 2 (erewrite bindM_run by (eapply interpolate_run; eassumption)).
  erewrite bindM_run by apply random_digits_run.
  unfold ret. rewrite !thumbnail_eq.
  unfold thumbnail_map, thumbnail_link, thumbnail_prefix.
  rewrite !RegexFacts.app_assoc.
  f_equal. lia.
Qed.

(** The result for any other category. *)
Lemma generateThumbnailUrls_null
  (fileInfo server sign timestamp category : js_value) (n : nat) :
  JS.get fileInfo "category" = Normal category ->
  JS.strict_eq_num category 1 || JS.strict_eq_num category 3 = false ->
  generateThumbnailUrls P fileInfo server sign timestamp n = (Normal JNull, n).
Proof.
  intros Hcat Hkind. unfold generateThumbnailUrls.
  do 2 (erewrite bindM_run by (eapply lift_get_run; eassumption)).
  rewrite <- negb_orb, Hkind. reflexivity.
Qed.

End Thumbnails.

(** C5: for a record whose identifier and context can be interpolated, the
    thumbnail map is produced exactly when the category is 1 or 3; it then
    has the four presets, whose links share everything but the size
    parameter, with [ft=video] for category 1 and [ft=image] for category
    3; for any other category the result is [null]. *)
Theorem generateThumbnailUrls_by_category
  (P : Platform) (fileInfo server sign timestamp category fs_id : js_value)
  (file time sgn : string) (n : nat) :
  JS.get fileInfo "category" = Normal category ->
  JS.get fileInfo "fs_id" = Normal fs_id ->
  JS.to_string fs_id = Normal file ->
  JS.to_string timestamp = Normal time ->
  JS.to_string sign = Normal sgn ->
  exists v n',
    generateThumbnailUrls P fileInfo server sign timestamp n = (Normal v, n')
    /\ ((exists shared ft, v = thumbnail_map shared ft)
        <-> category_is category 1 \/ category_is category 3)
    /\ (category_is category 1 ->
        exists r1 r2 logid,
          v = thumbnail_map (thumbnail_prefix file r1 r2 time sgn logid) "video")
    /\ (category_is category 3 ->
        exists r1 r2 logid,
          v = thumbnail_map (thumbnail_prefix file r1 r2 time sgn logid) "image")
    /\ (v = JNull \/ category_is category 1 \/ category_is category 3).
Proof.
  intros Hcat Hget Hfile Htime Hsign.
  destruct (JS.strict_eq_num category 1 || JS.strict_eq_num category 3) eqn:Hkind.
  - destruct (generateThumbnailUrls_map P fileInfo server sign timestamp category
                fs_id file time sgn n Hcat Hkind Hget Hfile Htime Hsign)
      as (r1 & r2 & logid & Hrun).
    assert (Hor : category_is category 1 \/ category_is category 3).
    { apply orb_prop in Hkind as [H | H]; apply strict_eq_num_true in H; auto. }
    do 2 eexists. split; [exact Hrun |].
    split; [split; [intros _; exact Hor | intros _; do 2 eexists; reflexivity] |].
    split; [intros H1; exists r1, r2, logid; rewrite H1; reflexivity |].
    split; [intros H3; exists r1, r2, logid; rewrite H3; reflexivity |].
    right. exact Hor.
  - rewrite (generateThumbnailUrls_null P fileInfo server sign timestamp category n
               Hcat Hkind).
    apply orb_false_iff in Hkind as [Hv Hi].
    assert (H1 : ~ category_is category 1)
      by (intros H; apply strict_eq_num_true in H; congruence).
    assert (H3 : ~ category_is category 3)
      by (intros H; apply strict_eq_num_true in H; congruence).
    do 2 eexists. split; [reflexivity |].
    split; [split; [intros (shared & ft & H); discriminate | tauto] |].
    split; [tauto |]. split; [tauto |]. now left.
Qed.

(** A video gets the map with [ft=video]; a record of category 2 gets
    [null]. *)
Lemma generateThumbnailUrls_samples :
  (exists r1 r2 logid,
     fst (generateThumbnailUrls Sample.platform movie_record
            (JStr "s1") (JStr "xyz") (JStr "111") 0%nat)
     = Normal (thumbnail_map (thumbnail_prefix "12345" r1 r2 "111" "xyz" logid) "video"))
  /\ fst (generateThumbnailUrls Sample.platform other_record
            (JStr "s1") (JStr "xyz") (JStr "111") 0%nat)
     = Normal JNull.
Proof.
  split.
  - destruct (generateThumbnailUrls_by_category Sample.platform movie_record
                (JStr "s1") (JStr "xyz") (JStr "111")
                (JNum (Num.of_Z 1)) (JNum (Num.of_Z 12345)) "12345" "111" "xyz" 0%nat
                eq_refl eq_refl eq_refl eq_refl eq_refl)
      as (v & n' & Hrun & _ & Hvideo & _).
    destruct (Hvideo eq_refl) as (r1 & r2 & logid & ->).
    exists r1, r2, logid. rewrite Hrun. reflexivity.
  - destruct (generateThumbnailUrls_by_category Sample.platform other_record
                (JStr "s1") (JStr "xyz") (JStr "111")
                (JNum (Num.of_Z 2)) (JNum (Num.of_Z 777)) "777" "111" "xyz" 0%nat
                eq_refl eq_refl eq_refl eq_refl eq_refl)
      as (v & n' & Hrun & _ & _ & _ & [-> | [H | H]]).
    + rewrite Hrun. reflexivity.
    + discriminate H.
    + discriminate H.
Defined.

(** ** The normalizer *)

Section Normalizer.

Variable P : Platform.

Lemma replace_absent (pat s : string) :
  Str.includes s pat = false -> Str.replace pat EmptyString s = s.
Proof.
  induction s as [|a s IH]; intros H; cbn [Str.includes] in H;
    apply orb_false_iff in H as [Hhere Hrest]; cbn [Str.replace]; rewrite Hhere.
  - reflexivity.
  - f_equal. auto.
Qed.

(** Where the hostname has no [www.] but a leading one, removing the first
    [www.] strips the prefix. *)
Lemma replace_www_leading (host : string) :
  Str.startsWith host "www." = true \/ Str.includes host "www." = false ->
  Str.replace "www." EmptyString host = strip_leading_www host.
Proof.
  unfold strip_leading_www. intros [Hlead | Hnone].
  - destruct host as [|a host]; cbn [Str.replace]; rewrite Hlead; reflexivity.
  - rewrite (replace_absent _ _ Hnone).
    destruct host as [|a host]; cbn [Str.includes] in Hnone;
      apply orb_false_iff in Hnone as [-> _]; reflexivity.
Qed.

(** On such hostnames the normalizer is the one of the specification. *)
Lemma normalizeTeraBoxUrl_specified (url host : string) :
  URL_hostname P url = Some host ->
  url <> EmptyString ->
  Str.startsWith host "www." = true \/ Str.includes host "www." = false ->
  normalizeTeraBoxUrl P url = normalize_specified P url.
Proof.
  intros Hhost Hurl Hwww. unfold normalizeTeraBoxUrl, normalize_specified.
  destruct url as [|c url]; [congruence |]. cbn [Str.is_empty].
  rewrite Hhost, (replace_www_leading host Hwww). unfold recognized_host.
  destruct (existsb _ validDomains); cbn [negb]; [| reflexivity].
  destruct (Str.includes _ "/s/"); reflexivity.
Qed.

(** A string that does not parse as a URL is invalid. *)
Lemma normalizeTeraBoxUrl_unparsed (url : string) :
  URL_hostname P url = None -> normalizeTeraBoxUrl P url = None.
Proof.
  intros H. unfold normalizeTeraBoxUrl. rewrite H.
  destruct (Str.is_empty url); reflexivity.
Qed.

End Normalizer.

(** C4, where the code leaves the claim: the hostname [terabowww.x.com] has
    no leading [www.] and contains no domain of the list, so the specified
    normalizer returns invalid; the code removes the [www.] inside it, finds
    [terabox.com] in what is left, and accepts the URL. *)
Theorem normalizeTeraBoxUrl_inner_www :
  URL_hostname Sample.platform "https://terabowww.x.com/" = Some "terabowww.x.com"
  /\ strip_leading_www "terabowww.x.com" = "terabowww.x.com"
  /\ recognized_host "terabowww.x.com" = false
  /\ normalize_specified Sample.platform "https://terabowww.x.com/" = None
  /\ Str.replace "www." EmptyString "terabowww.x.com" = "terabox.com"
  /\ normalizeTeraBoxUrl Sample.platform "https://terabowww.x.com/"
     = Some "https://terabowww.x.com/".
Proof. repeat split; vm_compute; reflexivity. Qed.

(** ** The size *)

Section Size.

Variable P : Platform.

Lemma formatSize_zero : formatSize P (JNum (Num.of_Z 0)) = Normal "0 Bytes".
Proof. reflexivity. Qed.

Lemma formatSize_1024 : formatSize P (JNum (Num.of_Z 1024)) = Normal "1 KB".
Proof. vm_compute. reflexivity. Qed.

Lemma formatSize_1536 : formatSize P (JNum (Num.of_Z 1536)) = Normal "1.5 KB".
Proof. vm_compute. reflexivity. Qed.

Lemma formatSize_1_GB : formatSize P (JNum (Num.of_Z 1073741824)) = Normal "1 GB".
Proof. vm_compute. reflexivity. Qed.

(** The index is the exact floor of the logarithm in base 1024. *)
Lemma log1024_floor_spec (b : Z) :
  1 <= b ->
  0 <= Num.log1024_floor b 0
  /\ 1024 ^ Num.log1024_floor b 0 <= b < 1024 ^ (Num.log1024_floor b 0 + 1).
Proof.
  intros Hb. unfold Num.log1024_floor. change (10 ^ Z.of_nat 0) with 1.
  destruct (Z.leb_spec 1 b); [| lia]. rewrite Z.div_1_r.
  pose proof (Z.log2_nonneg b) as Hl.
  pose proof (Z.log2_spec b ltac:(lia)) as [Hlow Hhigh].
  set (l := Z.log2 b) in *. set (i := l / 10).
  assert (Hi : 10 * i <= l < 10 * i + 10).
  { unfold i. pose proof (Z.div_mod l 10 ltac:(lia)).
    pose proof (Z.mod_pos_bound l 10 ltac:(lia)). lia. }
  assert (Hi0 : 0 <= i) by (unfold i; apply Z.div_pos; lia).
  split; [exact Hi0 |].
  change 1024 with (2 ^ 10). rewrite <- !Z.pow_mul_r by lia. split.
  - apply Z.le_trans with (2 ^ l); [| exact Hlow].
    apply Z.pow_le_mono_r; lia.
  - apply Z.lt_le_trans with (2 ^ Z.succ l); [exact Hhigh |].
    apply Z.pow_le_mono_r; lia.
Qed.

(** The numeric part is the quotient in hundredths, rounded to the nearest,
    a tie going up. *)
Lemma scaled_to_fixed2_nearest (b i : Z) :
  0 <= i ->
  exists h, Num.scaled_to_fixed2 b 0 i = Num.norm h 2
            /\ 2 * h * 1024 ^ i <= 200 * b + 1024 ^ i < 2 * (h + 1) * 1024 ^ i.
Proof.
  intros Hi. unfold Num.scaled_to_fixed2. change (10 ^ Z.of_nat 0) with 1.
  destruct (Z.leb_spec 0 i); [| lia]. rewrite !Z.mul_1_l.
  assert (Hpos : 0 < 1024 ^ i) by (apply Z.pow_pos_nonneg; lia).
  set (d := 1024 ^ i) in *.
  exists ((200 * b + d) / (2 * d)). split; [reflexivity |].
  pose proof (Z.div_mod (200 * b + d) (2 * d) ltac:(lia)).
  pose proof (Z.mod_pos_bound (200 * b + d) (2 * d) ltac:(lia)).
  nia.
Qed.

(** Below 1024^5 bytes the unit is the one of the index. *)
Lemma formatSize_within_units (b : Z) :
  1 <= b < 1024 ^ 5 ->
  exists i unit,
    0 <= i <= 4
    /\ 1024 ^ i <= b < 1024 ^ (i + 1)
    /\ nth_error sizes (Z.to_nat i) = Some unit
    /\ formatSize P (JNum (Num.of_Z b))
       = Normal (Num.to_string (Num.scaled_to_fixed2 b 0 i) ++ " " ++ unit).
Proof.
  intros [Hb Hmax].
  destruct (log1024_floor_spec b Hb) as (Hi0 & Hlow & Hhigh).
  set (i := Num.log1024_floor b 0) in *.
  assert (Hi4 : i <= 4).
  { destruct (Z.le_gt_cases i 4) as [H | H]; [exact H | exfalso].
    assert (1024 ^ 5 <= 1024 ^ i) by (apply Z.pow_le_mono_r; lia). lia. }
  assert (Hunit : exists unit, nth_error sizes (Z.to_nat i) = Some unit
                               /\ sizes_at i = unit).
  { unfold sizes_at. destruct (Z.ltb_spec i 0); [lia |].
    assert (Hcases : i = 0 \/ i = 1 \/ i = 2 \/ i = 3 \/ i = 4) by lia.
    destruct Hcases as [-> | [-> | [-> | [-> | ->]]]]; eexists; split; reflexivity. }
  destruct Hunit as (unit & Hnth & Hat).
  exists i, unit. repeat split; try assumption.
  unfold formatSize, JS.strict_eq_num, Num.strict_eq, Num.of_Z.
  destruct (Z.eqb_spec b 0); [lia |].
  cbn [andb to_number JS.bind formatNumber].
  destruct (Z.ltb_spec 0 b); [| lia].
  fold i. rewrite Hat. reflexivity.
Qed.

Lemma sizes_at_beyond (i : Z) : 5 <= i -> sizes_at i = "undefined".
Proof.
  intros Hi. unfold sizes_at.
  destruct (Z.ltb_spec i 0); [lia |].
  apply nth_overflow. simpl. lia.
Qed.

(** No clamp: from 1024^5 bytes on, the unit is read past the end of the
    list. *)
Lemma formatSize_beyond_TB (b : Z) :
  1024 ^ 5 <= b ->
  formatSize P (JNum (Num.of_Z b))
  = Normal (Num.to_string (Num.scaled_to_fixed2 b 0 (Z.log2 b / 10)) ++ " undefined").
Proof.
  intros Hb. unfold formatSize, JS.strict_eq_num, Num.strict_eq, Num.of_Z.
  destruct (Z.eqb_spec b 0) as [-> | _]; [lia |].
  cbn [andb to_number JS.bind formatNumber].
  destruct (Z.ltb_spec 0 b); [| lia].
  assert (Hlog : Num.log1024_floor b 0 = Z.log2 b / 10).
  { unfold Num.log1024_floor. change (10 ^ Z.of_nat 0) with 1.
    destruct (Z.leb_spec 1 b); [| lia]. now rewrite Z.div_1_r. }
  rewrite Hlog, sizes_at_beyond; [reflexivity |].
  assert (50 <= Z.log2 b).
  { change 50 with (Z.log2 (1024 ^ 5)). apply Z.log2_le_mono. exact Hb. }
  apply Z.div_le_lower_bound; lia.
Qed.

End Size.

(** C2, where the code leaves the claim: the index is not clamped to the
    list of units.  For 2^55 bytes (32 times 1024^5) the index is 5, one
    past [TB], and the unit printed is [undefined]. *)
Theorem formatSize_32_PiB (P : Platform) :
  Num.log1024_floor (2 ^ 55) 0 = 5
  /\ nth_error sizes 5 = None
  /\ formatSize P (JNum (Num.of_Z (2 ^ 55))) = Normal "32 undefined".
Proof. repeat split; vm_compute; reflexivity. Qed.

(** ** The end-to-end scenario *)

(** The share [https://terabox.com/s/1AbcDefGh] whose page holds the data of
    [movie.mp4]: the success marker, the title, the size, a direct link
    with the identifier and the sign, four thumbnails and the short
    link. *)
Example movie_scenario :
  match fst (extractTeraBoxInfo Sample.platform "https://terabox.com/s/1AbcDefGh" 0%nat) with
  | Normal (JObj [(_, JStr status);
                  (_, JArr [JObj [(_, title); (_, size); (_, JStr link);
                                  (_, JObj thumbnails)]]);
                  (_, JStr shortLink)]) =>
      status = "✅ Success"
      /\ title = JStr "movie.mp4"
      /\ size = JStr "1 GB"
      /\ Str.includes link "12345" = true
      /\ Str.includes link "xyz" = true
      /\ List.length thumbnails = 4%nat
      /\ shortLink = "https://1024terabox.com/s/1AbcDefGh"
  | _ => False
  end.
Proof. vm_compute. repeat split; reflexivity. Qed.

(** * Further properties of the code *)

(** ** The assignment of the page data *)

Module AssignmentFacts.

(** A line terminator does not reach over the semicolon that follows the
    text. *)
Lemma line_terminator_here_app (c : ascii) (d post : string) :
  Regex.line_terminator_here (String c (d ++ ";" ++ post))
  = Regex.line_terminator_here (String c d).
Proof.
  destruct d as [|c1 [|c2 d]]; [destruct post | |]; simpl;
    rewrite ?andb_false_r; reflexivity.
Qed.

Lemma line_terminator_here_plain (c : ascii) (s : string) :
  Ascii.eqb c ";" = false ->
  Regex.line_terminator_here (String c s) = false ->
  plain_char c = true.
Proof.
  intros Hsemi H. cbn [Regex.line_terminator_here] in H.
  apply orb_false_iff in H as [H _]. apply orb_false_iff in H as [Hlf Hcr].
  unfold plain_char. now rewrite Hsemi, Hlf, Hcr.
Qed.

Lemma lazy_to_semicolon_sound (s data : string) :
  Regex.lazy_to_semicolon s = Some data ->
  exists post, s = data ++ ";" ++ post
               /\ Str.forallb plain_char data = true
               /\ one_line data = true.
Proof.
  revert data. induction s as [|c s IH]; intros data H;
    cbn [Regex.lazy_to_semicolon] in H; [discriminate |].
  destruct (Ascii.eqb c ";") eqn:Hsemi.
  - apply Ascii.eqb_eq in Hsemi. subst c. injection H as <-.
    exists s. repeat split.
  - destruct (Regex.line_terminator_here (String c s)) eqn:Hlt; [discriminate |].
    destruct (Regex.lazy_to_semicolon s) as [t|] eqn:Ht; [| discriminate].
    injection H as <-. destruct (IH t eq_refl) as (post & -> & Hall & Hline).
    exists post. split; [reflexivity |]. split.
    + cbn [Str.forallb].
      now rewrite (line_terminator_here_plain c _ Hsemi Hlt), Hall.
    + rewrite line_terminator_here_app in Hlt.
      cbn [one_line]. now rewrite Hsemi, Hlt, Hline.
Qed.

Lemma lazy_to_semicolon_complete (data post : string) :
  one_line data = true ->
  Regex.lazy_to_semicolon (data ++ ";" ++ post) = Some data.
Proof.
  induction data as [|c data IH]; intros Hline; [reflexivity |].
  cbn [one_line] in Hline. apply andb_prop in Hline as [Hc Hline].
  apply andb_prop in Hc as [Hsemi Hlt].
  apply negb_true_iff in Hsemi, Hlt.
  change (String c data ++ ";" ++ post) with (String c (data ++ ";" ++ post)).
  cbn [Regex.lazy_to_semicolon].
  now rewrite Hsemi, line_terminator_here_app, Hlt, (IH Hline).
Qed.

Lemma search_assignment_sound (lit s data : string) :
  Regex.search_assignment lit s = Some data ->
  exists pre post, s = pre ++ lit ++ data ++ ";" ++ post
                   /\ Str.forallb plain_char data = true
                   /\ one_line data = true.
Proof.
  assert (Hhere : forall t, Regex.assignment_here lit t = Some data ->
                            exists post, t = lit ++ data ++ ";" ++ post
                                         /\ Str.forallb plain_char data = true
                                         /\ one_line data = true).
  { intros t H. unfold Regex.assignment_here in H.
    destruct (Str.startsWith t lit) eqn:Hp; [| discriminate].
    apply RegexFacts.startsWith_split in Hp.
    apply lazy_to_semicolon_sound in H as (post & Hs & Hall).
    exists post. split; [| exact Hall]. rewrite Hp at 1. now rewrite Hs. }
  induction s as [|a s IH]; simpl; intros H.
  - destruct (Regex.assignment_here lit EmptyString) as [t|] eqn:Ht; [| discriminate].
    injection H as ->. destruct (Hhere _ Ht) as (post & Hs & Hall).
    exists EmptyString, post. split; assumption.
  - destruct (Regex.assignment_here lit (String a s)) as [t|] eqn:Ht.
    + injection H as ->. destruct (Hhere _ Ht) as (post & Hs & Hall).
      exists EmptyString, post. split; assumption.
    + destruct (IH H) as (pre & post & -> & Hall).
      exists (String a pre), post. split; [reflexivity | exact Hall].
Qed.

Lemma search_assignment_complete (lit pre data post : string) :
  one_line data = true ->
  exists found, Regex.search_assignment lit (pre ++ lit ++ data ++ ";" ++ post) = Some found.
Proof.
  intros Hall.
  assert (Hhere : Regex.assignment_here lit (lit ++ data ++ ";" ++ post) = Some data).
  { unfold Regex.assignment_here.
    rewrite RegexFacts.startsWith_app, RegexFacts.drop_app.
    now apply lazy_to_semicolon_complete. }
  set (t := lit ++ data ++ ";" ++ post) in *. clearbody t.
  induction pre as [|a pre IH].
  - exists data. change (EmptyString ++ t) with t.
    destruct t; cbn [Regex.search_assignment]; now rewrite Hhere.
  - change (String a pre ++ t) with (String a (pre ++ t)).
    cbn [Regex.search_assignment].
    destruct (Regex.assignment_here lit (String a (pre ++ t))) as [u|];
      [now exists u | exact IH].
Qed.

End AssignmentFacts.

(** X1: what [extractFileInfoFromPage] takes for the page data is the text
    between an occurrence of [window.yunData = ] and the first semicolon
    after it, on one line: the text holds no semicolon, no line feed or
    carriage return, and no line terminator at all.  And a page that has
    the assignment with its text on one line, closed by a semicolon, always
    gives some data, whatever other bytes the text holds. *)
Theorem dataMatch_assignment (pageContent : string) :
  (forall data,
      dataMatch pageContent = Some data ->
      exists pre post,
        pageContent = pre ++ yunData_marker ++ data ++ ";" ++ post
        /\ Str.forallb plain_char data = true
        /\ one_line data = true)
  /\ (forall pre data post,
         pageContent = pre ++ yunData_marker ++ data ++ ";" ++ post ->
         one_line data = true ->
         exists found, dataMatch pageContent = Some found).
Proof.
  split.
  - intros data H. now apply AssignmentFacts.search_assignment_sound.
  - intros pre data post -> Hall.
    now apply AssignmentFacts.search_assignment_complete.
Qed.

(** A page whose data holds the bytes of U+2019. *)
Lemma dataMatch_assignment_sample :
  exists found, dataMatch quotation_page = Some found.
Proof.
  apply (proj2 (dataMatch_assignment quotation_page)
           "<script>" "{'title':'it’s'}" "</script>");
    reflexivity.
Defined.

(** ** The identifier *)

Lemma forallb_weaken (cls cls' : ascii -> bool) (s : string) :
  (forall c, cls c = true -> cls' c = true) ->
  Str.forallb cls s = true -> Str.forallb cls' s = true.
Proof.
  intros Hsub. induction s as [|c s IH]; simpl; [auto |].
  intros H. apply andb_prop in H as [Hc Hs]. now rewrite (Hsub c Hc), (IH Hs).
Qed.

Lemma digit_token_char (c : ascii) : Regex.digit c = true -> Regex.token_char c = true.
Proof. unfold Regex.token_char. intros ->. now rewrite !orb_true_r. Qed.

Lemma extractFileId_token_chars (url pageContent fileId : string) :
  extractFileId url pageContent = Some fileId ->
  fileId <> EmptyString /\ Str.forallb Regex.token_char fileId = true.
Proof.
  rewrite extractFileId_eq. intros H.
  assert (Hfirst : first_token "/s/" Regex.token_char url fileId
                   \/ first_token fs_id_marker Regex.digit pageContent fileId
                   \/ first_token shareid_marker Regex.digit pageContent fileId).
  { destruct (Regex.search_token "/s/" _ url) eqn:Ha.
    - left. apply RegexFacts.search_token_Some. congruence.
    - destruct (Regex.search_token fs_id_marker _ _) eqn:Hb.
      + right; left. apply RegexFacts.search_token_Some. congruence.
      + right; right. now apply RegexFacts.search_token_Some. }
  destruct Hfirst as [H1 | [H1 | H1]];
    destruct H1 as (pre & post & _ & Hne & Hall & _); split; try exact Hne;
    try exact Hall; apply (forallb_weaken Regex.digit); auto using digit_token_char.
Qed.

(** X3: an identifier that [extractFileId] returns is never empty and is
    made of letters, digits, underscores and hyphens only, whether it comes
    from the URL or from the page. *)
Theorem extractFileId_well_formed (url pageContent fileId : string) :
  extractFileId url pageContent = Some fileId ->
  fileId <> EmptyString /\ Str.forallb Regex.token_char fileId = true.
Proof. apply extractFileId_token_chars. Qed.

(** The identifier of a page, for a URL without a share segment. *)
Lemma extractFileId_well_formed_sample :
  "999" <> EmptyString /\ Str.forallb Regex.token_char "999" = true.
Proof.
  apply (extractFileId_well_formed "https://terabox.com/sharing/link"
           (fs_id_marker ++ "999,") "999").
  vm_compute. reflexivity.
Defined.

(** ** The allow-list of the normalizer *)

Module AllowList.

(** Removing the first [www.] goes past a text without the letter w. *)
Lemma replace_passes (x y : string) :
  Str.forallb not_w x = true ->
  Str.replace "www." EmptyString (x ++ y) = x ++ Str.replace "www." EmptyString y.
Proof.
  induction x as [|c x IH]; intros Hx; [reflexivity |].
  simpl in Hx. apply andb_prop in Hx as [Hc Hx].
  unfold not_w in Hc. apply negb_true_iff, Ascii.eqb_neq in Hc.
  change (String c x ++ y) with (String c (x ++ y)). cbn [Str.replace].
  assert (Hp : Str.startsWith (String c (x ++ y)) "www." = false).
  { unfold Str.startsWith. cbn [prefix].
    destruct (ascii_dec "w" c); [congruence | reflexivity]. }
  rewrite Hp, (IH Hx). reflexivity.
Qed.

Lemma includes_cons (a : ascii) (s sub : string) :
  Str.includes s sub = true -> Str.includes (String a s) sub = true.
Proof. intros H. cbn [Str.includes]. rewrite H. apply orb_true_r. Qed.

(** A domain that has no w and does not start with a dot is still there
    after the first [www.] of the host is removed. *)
Lemma includes_after_replace (d pre post : string) (c : ascii) (d' : string) :
  d = String c d' ->
  Str.forallb not_w d = true ->
  Ascii.eqb c "." = false ->
  Str.includes (Str.replace "www." EmptyString (pre ++ d ++ post)) d = true.
Proof.
  intros Hd Hw Hdot.
  assert (Hcw : c <> "w"%char).
  { rewrite Hd in Hw. simpl in Hw. apply andb_prop in Hw as [Hc _].
    unfold not_w in Hc. now apply negb_true_iff, Ascii.eqb_neq in Hc. }
  apply Ascii.eqb_neq in Hdot.
  induction pre as [|a pre IH].
  - change (EmptyString ++ d ++ post) with (d ++ post).
    rewrite (replace_passes d post Hw). apply includes_here.
  - change (String a pre ++ d ++ post) with (String a (pre ++ d ++ post)).
    cbn [Str.replace].
    destruct (Str.startsWith (String a (pre ++ d ++ post)) "www.") eqn:Hp.
    + cbn [append String.length].
      apply RegexFacts.startsWith_split in Hp. cbn [String.length] in Hp.
      destruct pre as [|b pre].
      { exfalso. subst d. simpl in Hp. injection Hp as _ Hp. congruence. }
      destruct pre as [|b' pre].
      { exfalso. subst d. simpl in Hp. injection Hp as _ _ Hp. congruence. }
      destruct pre as [|b'' pre].
      { exfalso. subst d. simpl in Hp. injection Hp as _ _ _ Hp. congruence. }
      cbn [append Str.drop]. apply includes_after, includes_here.
    + apply includes_cons. exact IH.
Qed.

Lemma validDomains_shape (d : string) :
  In d validDomains ->
  exists c d', d = String c d' /\ Str.forallb not_w d = true /\ Ascii.eqb c "." = false.
Proof.
  unfold validDomains. simpl.
  intros [<- | [<- | [<- | [<- | [<- | []]]]]]; do 2 eexists; repeat split.
Qed.

End AllowList.

(** X4: the allow-list is a substring test.  A URL that parses, with a
    hostname that contains one of the five domains anywhere, whatever
    stands before or after it, is accepted and returned as it is. *)
Theorem normalizeTeraBoxUrl_accepts_substring
  (P : Platform) (url pre validDomain post : string) :
  url <> EmptyString ->
  URL_hostname P url = Some (pre ++ validDomain ++ post) ->
  In validDomain validDomains ->
  normalizeTeraBoxUrl P url = Some url.
Proof.
  intros Hurl Hhost Hin. unfold normalizeTeraBoxUrl.
  destruct url as [|c0 url']; [congruence |]. cbn [Str.is_empty]. rewrite Hhost.
  destruct (AllowList.validDomains_shape validDomain Hin) as (c & d' & Hd & Hw & Hdot).
  assert (Hex : existsb (fun v => Str.includes
                                    (Str.replace "www." EmptyString
                                       (pre ++ validDomain ++ post)) v)
                  validDomains = true).
  { apply existsb_exists. exists validDomain. split; [exact Hin |].
    exact (AllowList.includes_after_replace validDomain pre post c d' Hd Hw Hdot). }
  rewrite Hex. cbn [negb]. destruct (Str.includes _ "/s/"); reflexivity.
Qed.

(** A host of another site that only contains the name of the service. *)
Lemma normalizeTeraBoxUrl_accepts_substring_sample :
  normalizeTeraBoxUrl Sample.platform "https://terabox.com.example.com/s/1AbcDefGh"
  = Some "https://terabox.com.example.com/s/1AbcDefGh".
Proof.
  apply (normalizeTeraBoxUrl_accepts_substring Sample.platform
           "https://terabox.com.example.com/s/1AbcDefGh"
           EmptyString "terabox.com" ".example.com").
  - discriminate.
  - vm_compute. reflexivity.
  - simpl. auto.
Defined.

(** ** The size, below 1024^5 bytes *)

(** X5: for a whole number of bytes from 1 to 1024^5 - 1024, [formatSize]
    prints the unit of the index [i] with [1024^i <= b < 1024^(i+1)], one of
    the five of the list, after the quotient [b / 1024^i] rounded to the
    nearest hundredth; the number printed lies between 1 and 1024, both
    included.  The last kilobyte below 1024^5 is left out: there the
    quotient of the two binary64 logarithms can round up to 5, as it does
    at 2^50 - 1, which the exact logarithm of the model does not follow. *)
Theorem formatSize_unit_and_number (P : Platform) (b : Z) :
  1 <= b <= 1024 ^ 5 - 1024 ->
  exists i unit h,
    0 <= i <= 4
    /\ nth_error sizes (Z.to_nat i) = Some unit
    /\ 1024 ^ i <= b < 1024 ^ (i + 1)
    /\ 2 * h * 1024 ^ i <= 200 * b + 1024 ^ i < 2 * (h + 1) * 1024 ^ i
    /\ 100 <= h <= 102400
    /\ formatSize P (JNum (Num.of_Z b))
       = Normal (Num.to_string (Num.norm h 2) ++ " " ++ unit).
Proof.
  intros Hb.
  destruct (formatSize_within_units P b ltac:(lia)) as (i & unit & Hi & Hrange & Hunit & Hrun).
  destruct (scaled_to_fixed2_nearest b i ltac:(lia)) as (h & Hh & Hnear).
  exists i, unit, h.
  split; [exact Hi |]. split; [exact Hunit |]. split; [exact Hrange |].
  split; [exact Hnear |]. split; [| now rewrite Hrun, Hh].
  assert (Hpos : 0 < 1024 ^ i) by (apply Z.pow_pos_nonneg; lia).
  replace (1024 ^ (i + 1)) with (1024 * 1024 ^ i) in Hrange
    by (rewrite Z.pow_add_r by lia; lia).
  set (d := 1024 ^ i) in *. nia.
Qed.

(** One byte short of a megabyte is printed as 1024 KB. *)
Lemma formatSize_unit_and_number_sample :
  exists i unit h,
    0 <= i <= 4
    /\ nth_error sizes (Z.to_nat i) = Some unit
    /\ 1024 ^ i <= 1048575 < 1024 ^ (i + 1)
    /\ 2 * h * 1024 ^ i <= 200 * 1048575 + 1024 ^ i < 2 * (h + 1) * 1024 ^ i
    /\ 100 <= h <= 102400
    /\ formatSize Sample.platform (JNum (Num.of_Z 1048575))
       = Normal (Num.to_string (Num.norm h 2) ++ " " ++ unit).
Proof.
  apply (formatSize_unit_and_number Sample.platform 1048575). vm_compute.
  split; discriminate.
Defined.

(** ** The answers of the endpoint *)

(** A request the middleware ends itself. *)
Lemma handler_preflight (P : Platform) (method : string) (url : option string) (n : nat) :
  String.eqb (toUpperCase method) "OPTIONS" = true ->
  handler P method url n
  = (Normal {| statusCode := 204; allow := None; body := JUndefined |}, n).
Proof. intros H. unfold handler, cors. rewrite H. reflexivity. Qed.

(** A request of another method than GET that the middleware lets through. *)
Lemma handler_not_GET (P : Platform) (method : string) (url : option string) (n : nat) :
  String.eqb (toUpperCase method) "OPTIONS" = false ->
  String.eqb method "GET" = false ->
  handler P method url n
  = (Normal {| statusCode := 405; allow := Some ["GET"];
               body := status_only "❌ Error: Method not allowed" |}, n).
Proof. intros Ho H. unfold handler, cors. rewrite Ho. cbn. rewrite H. reflexivity. Qed.

(** X8: whatever the method and the parameter, the endpoint answers.  A
    preflight request, of method OPTIONS in any letter case, is answered by
    the [cors] middleware with 204 and no body, and the code of the handler
    after [runMiddleware] does not run.  Every other request is answered
    with a body that has a string status, and with 200, 400 or 405: 405
    with the header [Allow: GET] exactly for a method other than GET,
    whatever else the request holds, and 200 for every result of the
    success shape. *)
Theorem handler_always_answers
  (P : Platform) (method : string) (url : option string) (n : nat) :
  exists r n',
    handler P method url n = (Normal r, n')
    /\ (String.eqb (toUpperCase method) "OPTIONS" = true ->
        r = {| statusCode := 204; allow := None; body := JUndefined |}
        /\ n' = n)
    /\ (String.eqb (toUpperCase method) "OPTIONS" = false ->
        (exists s, status_of (body r) = Some s)
        /\ (statusCode r = 200 \/ statusCode r = 400 \/ statusCode r = 405)
        /\ (statusCode r = 405 <-> String.eqb method "GET" = false)
        /\ (allow r = Some ["GET"] <-> String.eqb method "GET" = false)
        /\ (success_result (body r) -> statusCode r = 200)).
Proof.
  destruct (String.eqb (toUpperCase method) "OPTIONS") eqn:Ho.
  { rewrite (handler_preflight P method url n Ho).
    do 2 eexists. split; [reflexivity |].
    split; [intros _; split; reflexivity | discriminate]. }
  destruct (String.eqb method "GET") eqn:Hm.
  - apply String.eqb_eq in Hm. subst method.
    assert (Hmissing :
              forall r, r = {| statusCode := 400; allow := None;
                               body := status_only "❌ Error: Missing URL parameter" |} ->
                        (exists s, status_of (body r) = Some s)
                        /\ (statusCode r = 200 \/ statusCode r = 400 \/ statusCode r = 405)
                        /\ (statusCode r = 405 <-> true = false)
                        /\ (allow r = Some ["GET"] <-> true = false)
                        /\ (success_result (body r) -> statusCode r = 200)).
    { intros r ->. cbn. split; [eexists; reflexivity |].
      repeat split; auto; try discriminate.
      intros (info & link & H). discriminate. }
    destruct url as [[|c u]|].
    + do 2 eexists. split; [reflexivity |].
      split; [discriminate | intros _; now apply Hmissing].
    + destruct (handler_GET_url P (String c u) n ltac:(discriminate))
        as (v & n' & s & Hrun & Hshape & Hs & Hh).
      do 2 eexists. split; [exact Hh |]. split; [discriminate | intros _].
      cbn [body statusCode allow].
      split; [exists s; exact Hs |].
      split; [destruct (Str.includes s "Success"); auto |].
      split; [destruct (Str.includes s "Success"); split; discriminate |].
      split; [split; discriminate |].
      intros Hsuccess. rewrite (success_status v Hsuccess) in Hs.
      injection Hs as <-. reflexivity.
    + do 2 eexists. split; [reflexivity |].
      split; [discriminate | intros _; now apply Hmissing].
  - rewrite (handler_not_GET P method url n Ho Hm).
    do 2 eexists. split; [reflexivity |]. split; [discriminate | intros _].
    cbn [body statusCode allow].
    split; [eexists; reflexivity |]. split; [auto |].
    split; [tauto |]. split; [tauto |].
    intros (info & link & H). discriminate.
Qed.

(** A preflight request. *)
Lemma handler_always_answers_sample :
  handler Sample.platform "OPTIONS" (Some "https://terabox.com/s/1AbcDefGh") 0%nat
  = (Normal {| statusCode := 204; allow := None; body := JUndefined |}, 0%nat).
Proof.
  destruct (handler_always_answers Sample.platform "OPTIONS"
              (Some "https://terabox.com/s/1AbcDefGh") 0%nat)
    as (r & n' & Hrun & Hpreflight & _).
  destruct (Hpreflight eq_refl) as [Hr Hn]. rewrite Hr, Hn in Hrun. exact Hrun.
Defined.

(** X9: the status code follows the marker test alone.  When the fetch
    throws an error whose message contains [Success], the endpoint answers
    200 with the failure body that carries that message. *)
Theorem handler_200_on_failure
  (P : Platform) (url : string) (e : js_error) (n : nat) :
  url <> EmptyString ->
  normalizeTeraBoxUrl P url = Some url ->
  axios_get P url = Throw e ->
  Str.includes (message e) "Success" = true ->
  handler P "GET" (Some url) n
  = (Normal {| statusCode := 200; allow := None;
               body := status_only ("❌ Error: " ++ message e) |}, n).
Proof.
  intros Hurl Hnorm Hfetch Hmsg.
  destruct (handler_GET_url P url n Hurl) as (v & n' & s & Hrun & _ & Hs & Hh).
  rewrite (extractTeraBoxInfo_fetch_throws P url e n Hnorm Hfetch) in Hrun.
  injection Hrun as <- <-. rewrite status_of_status_only in Hs. injection Hs as <-.
  assert (Hm : message_or e "Failed to extract information" = message e).
  { unfold message_or. destruct (message e); [discriminate Hmsg | reflexivity]. }
  rewrite Hm in Hh. rewrite Hh.
  pose proof (includes_after "❌ Error: " (message e) "Success" Hmsg) as Hi.
  match goal with
  | |- context [Str.includes ?s "Success"] =>
      replace (Str.includes s "Success") with true by (symmetry; exact Hi)
  end.
  reflexivity.
Qed.

(** A fetch that fails with the message [Success rate limit reached]. *)
Lemma handler_200_on_failure_sample :
  handler (failing_platform (Error "Success rate limit reached")) "GET"
    (Some "https://terabox.com/s/1AbcDefGh") 0%nat
  = (Normal {| statusCode := 200; allow := None;
               body := status_only "❌ Error: Success rate limit reached" |}, 0%nat).
Proof.
  apply (handler_200_on_failure (failing_platform (Error "Success rate limit reached"))
           "https://terabox.com/s/1AbcDefGh" (Error "Success rate limit reached") 0%nat).
  - discriminate.
  - vm_compute. reflexivity.
  - reflexivity.
  - vm_compute. reflexivity.
Defined.

(** ** The file info *)

Section FileInfo.

Variable P : Platform.

Lemma bindM_inv {A B : Type} (c : M A) (k : A -> M B) (n n' : nat) (b : B) :
  bindM c k n = (Normal b, n') ->
  exists a m, c n = (Normal a, m) /\ k a m = (Normal b, n').
Proof.
  unfold bindM. destruct (c n) as [[a|e] m]; [| discriminate].
  intros H. now exists a, m.
Qed.

Lemma lift_inv {A : Type} (c : completion A) (n m : nat) (a : A) :
  lift c n = (Normal a, m) -> c = Normal a /\ m = n.
Proof. unfold lift. intros [= -> ->]. auto. Qed.

Lemma interpolate_property_inv (o : js_value) (key s : string) (n m : nat) :
  interpolate_property o key n = (Normal s, m) ->
  exists v, JS.get o key = Normal v /\ JS.to_string v = Normal s /\ m = n.
Proof.
  unfold interpolate_property, interpolate. intros H.
  apply bindM_inv in H as (v & k & Hget & Hs).
  apply lift_inv in Hget as [Hget ->]. apply lift_inv in Hs as [Hs ->].
  now exists v.
Qed.

Lemma interpolate_inv (v : js_value) (s : string) (n m : nat) :
  interpolate v n = (Normal s, m) -> JS.to_string v = Normal s /\ m = n.
Proof. unfold interpolate. apply lift_inv. Qed.

Lemma random_digits_inv (bound : Z) (s : string) (n m : nat) :
  random_digits P bound n = (Normal s, m) ->
  s = shown (floor_draw P bound n) /\ m = S n.
Proof. rewrite random_digits_run. intros [= <- <-]. auto. Qed.

(** A direct link that is returned is the template, after four draws. *)
Lemma createDirectLink_returns
  (fileInfo server sign timestamp : js_value) (link : string) (n n' : nat) :
  createDirectLink P fileInfo server sign timestamp n = (Normal link, n') ->
  exists file r1 r2 dstime sgn logid r,
    link = direct_link file r1 r2 dstime sgn logid r /\ n' = (n + 4)%nat.
Proof.
  unfold createDirectLink. intros H.
  apply bindM_inv in H as (file & m1 & H1 & H).
  apply interpolate_property_inv in H1 as (v1 & Hg1 & Hs1 & ->).
  apply bindM_inv in H as (fid & m2 & H2 & H).
  apply interpolate_property_inv in H2 as (v2 & Hg2 & Hs2 & ->).
  assert (fid = file) as -> by congruence.
  apply bindM_inv in H as (r1 & m3 & H3 & H). apply random_digits_inv in H3 as [-> ->].
  apply bindM_inv in H as (r2 & m4 & H4 & H). apply random_digits_inv in H4 as [-> ->].
  apply bindM_inv in H as (dstime & m5 & H5 & H). apply interpolate_inv in H5 as [_ ->].
  apply bindM_inv in H as (sgn & m6 & H6 & H). apply interpolate_inv in H6 as [_ ->].
  apply bindM_inv in H as (logid & m7 & H7 & H). apply random_digits_inv in H7 as [-> ->].
  apply bindM_inv in H as (r & m8 & H8 & H). apply random_digits_inv in H8 as [-> ->].
  unfold ret in H. injection H as <- <-.
  do 7 eexists. split; [unfold direct_link; reflexivity | lia].
Qed.

(** Thumbnails that are returned are [null] or the map of the presets. *)
Lemma generateThumbnailUrls_returns
  (fileInfo server sign timestamp v : js_value) (n n' : nat) :
  generateThumbnailUrls P fileInfo server sign timestamp n = (Normal v, n') ->
  v = JNull \/ exists shared ft, v = thumbnail_map shared ft.
Proof.
  intros H. pose proof H as Hrun. unfold generateThumbnailUrls in H.
  apply bindM_inv in H as (category & m1 & H1 & H). apply lift_inv in H1 as [Hcat ->].
  apply bindM_inv in H as (category' & m2 & H2 & H). apply lift_inv in H2 as [Hcat' ->].
  assert (category' = category) as -> by congruence.
  destruct (JS.strict_eq_num category 1 || JS.strict_eq_num category 3) eqn:Hkind.
  - right.
    replace (negb (JS.strict_eq_num category 1) && negb (JS.strict_eq_num category 3))
      with false in H by (rewrite <- negb_orb, Hkind; reflexivity).
    apply bindM_inv in H as (file & m3 & H3 & H).
    apply interpolate_property_inv in H3 as (fs_id & Hget & Hfile & ->).
    apply bindM_inv in H as (fid & m4 & _ & H).
    apply bindM_inv in H as (r1 & m5 & _ & H).
    apply bindM_inv in H as (r2 & m6 & _ & H).
    apply bindM_inv in H as (time & m7 & H7 & H). apply interpolate_inv in H7 as [Htime _].
    apply bindM_inv in H as (sgn & m8 & H8 & _). apply interpolate_inv in H8 as [Hsign _].
    destruct (generateThumbnailUrls_map P fileInfo server sign timestamp category
                fs_id file time sgn n Hcat Hkind Hget Hfile Htime Hsign)
      as (q1 & q2 & logid & Hmap).
    rewrite Hmap in Hrun. injection Hrun as <- _. eauto.
  - left.
    rewrite (generateThumbnailUrls_null P fileInfo server sign timestamp category n
               Hcat Hkind) in Hrun.
    now injection Hrun as <- _.
Qed.

Lemma or_else_truthy (a b : js_value) :
  JS.truthy b = true -> JS.truthy (JS.or_else a b) = true.
Proof. intros Hb. unfold JS.or_else. destruct (JS.truthy a) eqn:Ha; assumption. Qed.

(** What the body of the [try] block returns. *)
Lemma fileInfoFromData_returns (data : string) (v : js_value) (n n' : nat) :
  fileInfoFromData P data n = (Normal v, n') -> v = JNull \/ file_info_record v.
Proof.
  unfold fileInfoFromData. intros H.
  apply bindM_inv in H as (yunData & m1 & _ & H).
  apply bindM_inv in H as (file_list & m2 & _ & H).
  apply bindM_inv in H as (len & m3 & _ & H).
  destruct (JS.strict_eq_num len 0).
  { left. unfold ret in H. now injection H as <- _. }
  right.
  apply bindM_inv in H as (fileInfo & m4 & _ & H).
  apply bindM_inv in H as (srv & m5 & _ & H).
  apply bindM_inv in H as (sgn & m6 & _ & H).
  apply bindM_inv in H as (ts & m7 & _ & H).
  apply bindM_inv in H as (directLink & m8 & Hlink & H).
  apply bindM_inv in H as (server_filename & m9 & _ & H).
  apply bindM_inv in H as (size & m10 & _ & H).
  apply bindM_inv in H as (formatted & m11 & _ & H).
  apply bindM_inv in H as (thumbnails & m12 & Hthumbs & H).
  unfold ret in H. injection H as <- _.
  apply createDirectLink_returns in Hlink as (file & r1 & r2 & dstime & s & logid & r & -> & _).
  apply generateThumbnailUrls_returns in Hthumbs.
  do 4 eexists. split; [reflexivity |].
  split; [now apply or_else_truthy |].
  split; [apply RegexFacts.startsWith_app | exact Hthumbs].
Qed.

(** The parser never throws: it returns [null] or a file info. *)
Lemma extractFileInfoFromPage_returns (pageContent : string) (n : nat) :
  exists v n',
    extractFileInfoFromPage P pageContent n = (Normal v, n')
    /\ (v = JNull \/ file_info_record v).
Proof.
  unfold extractFileInfoFromPage.
  destruct (dataMatch pageContent) as [data|]; [| do 2 eexists; split; [reflexivity | now left]].
  destruct (Str.is_empty data); [do 2 eexists; split; [reflexivity | now left] |].
  unfold try_catch.
  destruct (fileInfoFromData P data n) as [[v|e] n'] eqn:Hrun.
  - exists v, n'. split; [reflexivity |]. now apply fileInfoFromData_returns in Hrun.
  - do 2 eexists. split; [reflexivity | now left].
Qed.

End FileInfo.

(** X2: [extractFileInfoFromPage] never throws, whatever the page holds:
    it returns [null], or a record of exactly the four fields title, size,
    directLink and thumbnails, whose title is truthy (the name of the file,
    or [Unknown]), whose size and direct link are strings, the link being
    on the download host, and whose thumbnails are [null] or the map of the
    four presets. *)
Theorem extractFileInfoFromPage_null_or_record
  (P : Platform) (pageContent : string) (n : nat) :
  exists v n',
    extractFileInfoFromPage P pageContent n = (Normal v, n')
    /\ (v = JNull \/ file_info_record v).
Proof. apply extractFileInfoFromPage_returns. Qed.

(** ** The first file of a share *)

Section FirstFile.

Variable P : Platform.

(** With a file list that is not empty, the data gives what the first file
    gives. *)
Lemma fileInfoFromData_file_list
  (data : string) (yunData fileInfo : js_value) (rest : list js_value) (n : nat) :
  JSON.parse data = Normal yunData ->
  JS.get yunData "file_list" = Normal (JArr (fileInfo :: rest)) ->
  fileInfoFromData P data n = fileInfoOf P fileInfo yunData n.
Proof.
  intros Hparse Hlist. unfold fileInfoFromData.
  erewrite bindM_run by (unfold lift; rewrite Hparse; reflexivity).
  erewrite bindM_run by (unfold lift; rewrite Hlist; reflexivity).
  change (JS.or_else (JArr (fileInfo :: rest)) (JArr [])) with (JArr (fileInfo :: rest)).
  erewrite bindM_run by (unfold lift; reflexivity).
  assert (Hlen : JS.strict_eq_num
                   (JNum (Num.of_Z (Z.of_nat (List.length (fileInfo :: rest))))) 0 = false).
  { unfold JS.strict_eq_num, Num.strict_eq, Num.of_Z.
    destruct (Z.eqb_spec (Z.of_nat (List.length (fileInfo :: rest))) 0) as [H | H];
      [simpl in H; lia | reflexivity]. }
  rewrite Hlen.
  erewrite bindM_run by (unfold lift; reflexivity).
  change (hd JUndefined (fileInfo :: rest)) with fileInfo.
  reflexivity.
Qed.

End FirstFile.

(** X7: of a share of several files only the first one is read.  Two data
    that decode to objects whose file lists start with the same file, and
    that have the same [server], [sign] and [timestamp], give the same file
    info, wherever the file list stands among the keys and whatever else
    the objects hold: the files after the first change nothing. *)
Theorem fileInfoFromData_first_file_only
  (P : Platform) (data data' : string) (yunData yunData' fileInfo : js_value)
  (rest rest' : list js_value) (n : nat) :
  JSON.parse data = Normal yunData ->
  JSON.parse data' = Normal yunData' ->
  JS.get yunData "file_list" = Normal (JArr (fileInfo :: rest)) ->
  JS.get yunData' "file_list" = Normal (JArr (fileInfo :: rest')) ->
  JS.get yunData' "server" = JS.get yunData "server" ->
  JS.get yunData' "sign" = JS.get yunData "sign" ->
  JS.get yunData' "timestamp" = JS.get yunData "timestamp" ->
  fileInfoFromData P data n = fileInfoFromData P data' n.
Proof.
  intros Hdata Hdata' Hlist Hlist' Hserver Hsign Htime.
  rewrite (fileInfoFromData_file_list P data yunData fileInfo rest n Hdata Hlist).
  rewrite (fileInfoFromData_file_list P data' yunData' fileInfo rest' n Hdata' Hlist').
  unfold fileInfoOf. rewrite Hserver, Hsign, Htime. reflexivity.
Qed.

(** A share of two files, with the sign before the file list and one more
    key after it, and the share of its first file. *)
Lemma fileInfoFromData_first_file_only_sample :
  fileInfoFromData Sample.platform two_files_data 0%nat
  = fileInfoFromData Sample.platform first_file_data 0%nat.
Proof.
  apply (fileInfoFromData_first_file_only Sample.platform two_files_data first_file_data
           (JObj [("sign", JStr "xyz");
                  ("file_list",
                   JArr [JObj [("server_filename", JStr "a.txt");
                               ("size", JNum (Num.of_Z 1536));
                               ("fs_id", JNum (Num.of_Z 1));
                               ("category", JNum (Num.of_Z 6))];
                         JObj [("server_filename", JStr "b.mp4");
                               ("size", JNum (Num.of_Z 9));
                               ("fs_id", JNum (Num.of_Z 2));
                               ("category", JNum (Num.of_Z 1))]]);
                  ("uk", JNum (Num.of_Z 7))])
           (JObj [("file_list",
                   JArr [JObj [("server_filename", JStr "a.txt");
                               ("size", JNum (Num.of_Z 1536));
                               ("fs_id", JNum (Num.of_Z 1));
                               ("category", JNum (Num.of_Z 6))]]);
                  ("sign", JStr "xyz")])
           (JObj [("server_filename", JStr "a.txt"); ("size", JNum (Num.of_Z 1536));
                  ("fs_id", JNum (Num.of_Z 1)); ("category", JNum (Num.of_Z 6))])
           [JObj [("server_filename", JStr "b.mp4"); ("size", JNum (Num.of_Z 9));
                  ("fs_id", JNum (Num.of_Z 2)); ("category", JNum (Num.of_Z 1))]]
           []);
    vm_compute; reflexivity.
Defined.

(** ** The stages of an extraction *)

Section Stages.

Variable P : Platform.

Lemma error_status_not_success (msg : string) :
  status_of (status_only ("❌ Error: " ++ msg)) <> Some "✅ Success".
Proof. rewrite status_of_status_only. simpl. intros H. discriminate H. Qed.

(** The run of [extractTeraBoxInfo], stage by stage. *)
Lemma extractTeraBoxInfo_stages (url : string) (n : nat) :
  exists v n',
    extractTeraBoxInfo P url n = (Normal v, n')
    /\ (status_of v = Some "✅ Success" <->
        exists pageContent fileId fileInfo,
          normalizeTeraBoxUrl P url = Some url
          /\ axios_get P url = Normal pageContent
          /\ extractFileId url pageContent = Some fileId
          /\ extractFileInfoFromPage P pageContent n = (Normal fileInfo, n')
          /\ JS.truthy fileInfo = true
          /\ formatResponse fileInfo ("https://1024terabox.com/s/" ++ fileId) = Normal v).
Proof.
  unfold extractTeraBoxInfo, try_catch, bindM, lift, ret.
  destruct (normalizeTeraBoxUrl P url) as [normalizedUrl|] eqn:Hnorm.
  2: { do 2 eexists. split; [reflexivity |]. split.
       - intros H. now apply (error_status_not_success "Invalid TeraBox URL") in H.
       - intros (page & id & info & H & _). discriminate. }
  apply normalizeTeraBoxUrl_unchanged in Hnorm as Heq. subst normalizedUrl.
  destruct (axios_get P url) as [data|e] eqn:Hfetch.
  2: { do 2 eexists. split; [reflexivity |]. split.
       - intros H. now apply error_status_not_success in H.
       - intros (page & id & info & _ & H & _). discriminate. }
  destruct (extractFileId url data) as [fileId|] eqn:Hid.
  2: { do 2 eexists. split; [reflexivity |]. split.
       - intros H. now apply (error_status_not_success "Could not extract file ID") in H.
       - intros (page & id & info & _ & Hp & H & _).
         injection Hp as <-. congruence. }
  destruct (extractFileInfoFromPage P data n) as [[fileInfo|e] n1] eqn:Hinfo.
  2: { do 2 eexists. split; [reflexivity |]. split.
       - intros H. now apply error_status_not_success in H.
       - intros (page & id & info & _ & Hp & _ & H & _).
         injection Hp as <-. congruence. }
  destruct (JS.truthy fileInfo) eqn:Htruthy; cbn [negb generateShortLink].
  - destruct (formatResponse_success fileInfo ("https://1024terabox.com/s/" ++ fileId) Htruthy)
      as (v & Hv & Hs).
    rewrite Hv. exists v, n1. split; [reflexivity |]. split.
    + intros _. exists data, fileId, fileInfo. repeat split; auto.
    + intros _. now apply success_status.
  - do 2 eexists. split; [reflexivity |]. split.
    + intros H. now apply (error_status_not_success "Could not extract file info") in H.
    + intros (page & id & info & _ & Hp & _ & H & Ht & _).
      injection Hp as <-. rewrite Hinfo in H. injection H as <-. congruence.
Qed.

End Stages.

(** X6: an extraction succeeds exactly when its four stages do: the URL is
    accepted, the fetch of that same URL returns a page, an identifier is
    found, and the page gives a file info; the result is then the response
    formatted from that file info and the short link of that identifier.
    In every other case the status is an error. *)
Theorem extractTeraBoxInfo_success_iff (P : Platform) (url : string) (n : nat) :
  exists v n',
    extractTeraBoxInfo P url n = (Normal v, n')
    /\ (status_of v = Some "✅ Success" <->
        exists pageContent fileId fileInfo,
          normalizeTeraBoxUrl P url = Some url
          /\ axios_get P url = Normal pageContent
          /\ extractFileId url pageContent = Some fileId
          /\ extractFileInfoFromPage P pageContent n = (Normal fileInfo, n')
          /\ JS.truthy fileInfo = true
          /\ formatResponse fileInfo ("https://1024terabox.com/s/" ++ fileId) = Normal v).
Proof. apply extractTeraBoxInfo_stages. Qed.

(** ** The page *)

Section Page.

Lemma message_or_nonempty (e : js_error) (fallback : string) :
  Str.is_empty fallback = false -> Str.is_empty (message_or e fallback) = false.
Proof.
  intros H. unfold message_or. destruct (Str.is_empty (message e)) eqn:He; assumption.
Qed.

Lemma status_of_inv (v : js_value) (s : string) :
  status_of v = Some s -> JS.get v "status" = Normal (JStr s).
Proof.
  unfold status_of. destruct (JS.get v "status") as [[| | | | t | |]|]; try discriminate.
  now intros [= ->].
Qed.

Lemma shape_status_nonempty (v : js_value) (s : string) :
  failure_result v \/ success_result v -> status_of v = Some s ->
  Str.is_empty s = false.
Proof.
  intros [[msg ->] | (info & link & ->)] H.
  - rewrite status_of_status_only in H. now injection H as <-.
  - cbn in H. now injection H as <-.
Qed.

(** What [handleSubmit] does with a body whose status is a string. *)
Lemma handleSubmit_received (api : string -> completion js_value) (st : Home.state)
  (data : js_value) (s : string) :
  api (Home.url st) = Normal data ->
  JS.get data "status" = Normal (JStr s) ->
  Str.is_empty s = false ->
  Home.handleSubmit api st
  = if Str.includes s "Success"
    then {| Home.url := Home.url st; Home.result := data;
            Home.loading := false; Home.error := JNull |}
    else {| Home.url := Home.url st; Home.result := Home.result st;
            Home.loading := false; Home.error := JStr s |}.
Proof.
  intros Hapi Hget Hs. unfold Home.handleSubmit. cbn [Home.url Home.setLoading Home.setError].
  rewrite Hapi. cbn [JS.bind]. unfold Home.received. rewrite Hget.
  cbn [JS.bind Home.includes_Success].
  destruct (Str.includes s "Success"); [reflexivity |].
  cbn [JS.bind]. unfold JS.or_else. cbn [JS.truthy]. rewrite Hs. reflexivity.
Qed.

End Page.

(** X10: when [handleSubmit] is done the page is no longer loading and the
    URL typed is as it was.  Either the body received has a status that
    passes the marker test, and it becomes the result, with no error; or an
    error is shown, and the result is the one the page had before: a failed
    request does not clear the result of an earlier one. *)
Theorem handleSubmit_outcome (api : string -> completion js_value) (st : Home.state) :
  Home.loading (Home.handleSubmit api st) = false
  /\ Home.url (Home.handleSubmit api st) = Home.url st
  /\ ((exists data status,
         api (Home.url st) = Normal data
         /\ JS.get data "status" = Normal status
         /\ Home.includes_Success status = Normal true
         /\ Home.result (Home.handleSubmit api st) = data
         /\ Home.error (Home.handleSubmit api st) = JNull)
      \/ (Home.result (Home.handleSubmit api st) = Home.result st
          /\ JS.truthy (Home.error (Home.handleSubmit api st)) = true)).
Proof.
  unfold Home.handleSubmit. cbn [Home.url Home.setLoading Home.setError].
  destruct (api (Home.url st)) as [data|e] eqn:Hapi; cbn [JS.bind].
  2: { repeat split. right. split; [reflexivity |]. cbn.
       now rewrite message_or_nonempty. }
  unfold Home.received.
  destruct (JS.get data "status") as [status|e] eqn:Hget; cbn [JS.bind].
  2: { repeat split. right. split; [reflexivity |]. cbn.
       now rewrite message_or_nonempty. }
  destruct (Home.includes_Success status) as [[|]|e] eqn:Hinc; cbn [JS.bind].
  - repeat split. left. exists data, status. repeat split; assumption.
  - repeat split. right. split; [reflexivity |]. cbn.
    unfold JS.or_else. destruct (JS.truthy status) eqn:Ht; [exact Ht | reflexivity].
  - repeat split. right. split; [reflexivity |]. cbn.
    now rewrite message_or_nonempty.
Qed.

(** X11: the page and the endpoint agree.  When the browser receives the
    body the endpoint sends for the URL typed, the page shows that body as
    the result, with no error, exactly when the endpoint answered 200; when
    it answered 400 the page shows the status of the body as the error and
    keeps the result it had. *)
Theorem handleSubmit_follows_handler (P : Platform) (n : nat) (st : Home.state) :
  exists r n',
    handler P "GET" (Some (Home.url st)) n = (Normal r, n')
    /\ Home.loading (Home.handleSubmit (served P n) st) = false
    /\ ((statusCode r = 200
         /\ Home.result (Home.handleSubmit (served P n) st) = body r
         /\ Home.error (Home.handleSubmit (served P n) st) = JNull)
        \/ (statusCode r = 400
            /\ Home.result (Home.handleSubmit (served P n) st) = Home.result st
            /\ exists s, status_of (body r) = Some s
                         /\ Home.error (Home.handleSubmit (served P n) st) = JStr s)).
Proof.
  destruct (Home.url st) as [|c u] eqn:Hurl.
  - do 2 eexists. split; [reflexivity |].
    rewrite (handleSubmit_received (served P n) st
               (status_only "❌ Error: Missing URL parameter")
               "❌ Error: Missing URL parameter");
      [| rewrite Hurl; reflexivity | reflexivity | reflexivity].
    split; [reflexivity |]. right. split; [reflexivity |]. split; [reflexivity |].
    eexists. split; reflexivity.
  - destruct (handler_GET_url P (String c u) n ltac:(discriminate))
      as (v & n' & s & Hrun & Hshape & Hs & Hh).
    do 2 eexists. split; [exact Hh |].
    rewrite (handleSubmit_received (served P n) st v s);
      [| rewrite Hurl; unfold served; rewrite Hh; reflexivity
       | now apply status_of_inv
       | exact (shape_status_nonempty v s Hshape Hs)].
    cbn [statusCode body].
    destruct (Str.includes s "Success").
    + split; [reflexivity |]. left. repeat split.
    + split; [reflexivity |]. right. split; [reflexivity |]. split; [reflexivity |].
      exists s. split; [exact Hs | reflexivity].
Qed.

(** ** The thumbnail preview *)

Section Preview.

Variable P : Platform.

Lemma formatResponse_record
  (title : js_value) (size directLink : string) (thumbnails : js_value)
  (shortLink : string) :
  formatResponse (JObj [("title", title); ("size", JStr size);
                        ("directLink", JStr directLink); ("thumbnails", thumbnails)])
    shortLink
  = Normal (success_response title size directLink
              (JS.or_else thumbnails (JObj [])) shortLink).
Proof. reflexivity. Qed.

Lemma thumbnailPreview_none
  (title : js_value) (size directLink shortLink : string) :
  Home.thumbnailPreview (success_response title size directLink (JObj []) shortLink)
  = Normal None.
Proof. reflexivity. Qed.

Lemma thumbnail_link_nonempty (shared : string) (width height : Z) (ft : string) :
  Str.is_empty (thumbnail_link shared width height ft) = false.
Proof. unfold thumbnail_link. destruct shared; reflexivity. Qed.

Lemma thumbnailPreview_map
  (title : js_value) (size directLink shortLink shared ft : string) :
  Home.thumbnailPreview
    (success_response title size directLink (thumbnail_map shared ft) shortLink)
  = Normal (Some (JStr (thumbnail_link shared 360 270 ft))).
Proof.
  unfold Home.thumbnailPreview, success_response, thumbnail_map.
  cbn [JS.truthy JS.bind JS.get JS.own_property Home.optional_get String.eqb Ascii.eqb
       Bool.eqb hd].
  cbn [JS.truthy]. now rewrite thumbnail_link_nonempty.
Qed.

(** A successful result is the response of a file info. *)
Lemma extractTeraBoxInfo_success_response (url : string) (v : js_value) (n n' : nat) :
  extractTeraBoxInfo P url n = (Normal v, n') ->
  status_of v = Some "✅ Success" ->
  exists title size directLink thumbnails shortLink,
    v = success_response title size directLink thumbnails shortLink
    /\ (thumbnails = JObj [] \/ exists shared ft, thumbnails = thumbnail_map shared ft).
Proof.
  intros Hrun Hs.
  destruct (extractTeraBoxInfo_stages P url n) as (v0 & n0 & Hrun0 & Hiff).
  rewrite Hrun in Hrun0. injection Hrun0 as <- <-.
  apply Hiff in Hs as (page & id & info & _ & _ & _ & Hinfo & Htruthy & Hformat).
  destruct (extractFileInfoFromPage_returns P page n) as (info0 & n0 & Hinfo0 & Hshape).
  rewrite Hinfo in Hinfo0. injection Hinfo0 as <- <-.
  destruct Hshape as [-> | (title & size & link & thumbs & -> & _ & _ & Hthumbs)];
    [discriminate |].
  rewrite formatResponse_record in Hformat. injection Hformat as <-.
  do 5 eexists. split; [reflexivity |].
  destruct Hthumbs as [-> | (shared & ft & ->)];
    [left; reflexivity | right; exists shared, ft; reflexivity].
Qed.

End Preview.

(** X12: for the result of a successful extraction the page computes the
    preview without an error.  It shows none when the thumbnails of the
    result are the empty map, which stands for a file that is neither a
    video nor an image, and otherwise shows the 360x270 thumbnail. *)
Theorem thumbnailPreview_of_success
  (P : Platform) (url : string) (v : js_value) (n n' : nat) :
  extractTeraBoxInfo P url n = (Normal v, n') ->
  status_of v = Some "✅ Success" ->
  exists title size directLink shortLink,
    (v = success_response title size directLink (JObj []) shortLink
     /\ Home.thumbnailPreview v = Normal None)
    \/ (exists shared ft,
          v = success_response title size directLink (thumbnail_map shared ft) shortLink
          /\ Home.thumbnailPreview v
             = Normal (Some (JStr (thumbnail_link shared 360 270 ft)))).
Proof.
  intros Hrun Hs.
  destruct (extractTeraBoxInfo_success_response P url v n n' Hrun Hs)
    as (title & size & link & thumbs & short & -> & [-> | (shared & ft & ->)]);
    exists title, size, link, short.
  - left. split; [reflexivity | apply thumbnailPreview_none].
  - right. exists shared, ft. split; [reflexivity | apply thumbnailPreview_map].
Qed.

(** The video of the scenario has a preview. *)
Lemma thumbnailPreview_of_success_sample :
  exists v,
    fst (extractTeraBoxInfo Sample.platform "https://terabox.com/s/1AbcDefGh" 0%nat)
    = Normal v
    /\ exists src, Home.thumbnailPreview v = Normal (Some (JStr src)).
Proof.
  destruct (extractTeraBoxInfo Sample.platform "https://terabox.com/s/1AbcDefGh" 0%nat)
    as [[v|e] n'] eqn:Hrun; [| vm_compute in Hrun; discriminate Hrun].
  exists v. split; [reflexivity |].
  assert (Hs : status_of v = Some "✅ Success").
  { vm_compute in Hrun. injection Hrun as <- _. reflexivity. }
  destruct (thumbnailPreview_of_success Sample.platform
              "https://terabox.com/s/1AbcDefGh" v 0%nat n' Hrun Hs)
    as (title & size & link & short & [[Hv Hnone] | (shared & ft & Hv & Hsome)]).
  - exfalso. vm_compute in Hrun. injection Hrun as <- _. discriminate Hv.
  - eexists. exact Hsome.
Defined.

(** ** The short link of a result *)

(** X14: the short link of every successful result is on the host
    [1024terabox.com], whatever the host of the URL extracted: it is
    [https://1024terabox.com/s/] followed by the identifier found for the
    URL and the page fetched, a non-empty run of letters, digits,
    underscores and hyphens. *)
Theorem short_link_of_success
  (P : Platform) (url : string) (v : js_value) (n n' : nat) :
  extractTeraBoxInfo P url n = (Normal v, n') ->
  status_of v = Some "✅ Success" ->
  exists pageContent fileId,
    axios_get P url = Normal pageContent
    /\ extractFileId url pageContent = Some fileId
    /\ JS.get v "🔗 ShortLink" = Normal (JStr ("https://1024terabox.com/s/" ++ fileId))
    /\ fileId <> EmptyString
    /\ Str.forallb Regex.token_char fileId = true.
Proof.
  intros Hrun Hs.
  destruct (extractTeraBoxInfo_stages P url n) as (v0 & n0 & Hrun0 & Hiff).
  rewrite Hrun in Hrun0. injection Hrun0 as <- <-.
  apply Hiff in Hs as (page & id & info & _ & Hfetch & Hid & _ & Htruthy & Hformat).
  exists page, id. split; [exact Hfetch |]. split; [exact Hid |].
  split; [| now apply (extractFileId_token_chars url page)].
  destruct info; simpl in Htruthy; try discriminate;
    unfold formatResponse in Hformat;
    repeat match type of Hformat with
           | context [JS.get ?o ?k] =>
               destruct (JS.get o k); [cbn [JS.bind] in Hformat | discriminate Hformat]
           end;
    injection Hformat as <-; reflexivity.
Qed.

(** A share on another host of the service. *)
Lemma short_link_of_success_sample :
  exists v,
    fst (extractTeraBoxInfo Sample.platform "https://terabox.com/s/1AbcDefGh" 0%nat)
    = Normal v
    /\ JS.get v "🔗 ShortLink" = Normal (JStr "https://1024terabox.com/s/1AbcDefGh").
Proof.
  destruct (extractTeraBoxInfo Sample.platform "https://terabox.com/s/1AbcDefGh" 0%nat)
    as [[v|e] n'] eqn:Hrun; [| vm_compute in Hrun; discriminate Hrun].
  exists v. split; [reflexivity |].
  assert (Hs : status_of v = Some "✅ Success").
  { vm_compute in Hrun. injection Hrun as <- _. reflexivity. }
  destruct (short_link_of_success Sample.platform "https://terabox.com/s/1AbcDefGh"
              v 0%nat n' Hrun Hs)
    as (page & id & Hfetch & Hid & Hlink & _).
  vm_compute in Hfetch. injection Hfetch as <-.
  vm_compute in Hid. injection Hid as <-. exact Hlink.
Defined.

(** ** A file without a name and a size *)

(** X13: a first file whose [server_filename] and [size] are missing or
    falsy, as the empty string and zero are, is reported with the title
    [Unknown] and the size [0 Bytes], wherever the file list stands among
    the keys of the data. *)
Theorem fileInfoFromData_defaults
  (P : Platform) (data : string) (yunData fileInfo name size v : js_value)
  (rest : list js_value) (n n' : nat) :
  JSON.parse data = Normal yunData ->
  JS.get yunData "file_list" = Normal (JArr (fileInfo :: rest)) ->
  JS.get fileInfo "server_filename" = Normal name ->
  JS.truthy name = false ->
  JS.get fileInfo "size" = Normal size ->
  JS.truthy size = false ->
  fileInfoFromData P data n = (Normal v, n') ->
  JS.get v "title" = Normal (JStr "Unknown")
  /\ JS.get v "size" = Normal (JStr "0 Bytes").
Proof.
  intros Hparse Hlist Hname Hfalsy Hsize Hzero Hrun.
  rewrite (fileInfoFromData_file_list P data yunData fileInfo rest n Hparse Hlist) in Hrun.
  unfold fileInfoOf in Hrun.
  apply bindM_inv in Hrun as (srv & m1 & _ & H).
  apply bindM_inv in H as (sgn & m2 & _ & H).
  apply bindM_inv in H as (ts & m3 & _ & H).
  apply bindM_inv in H as (directLink & m4 & _ & H).
  apply bindM_inv in H as (server_filename & m5 & H5 & H).
  apply lift_inv in H5 as [H5 ->]. rewrite Hname in H5. injection H5 as <-.
  apply bindM_inv in H as (size' & m6 & H6 & H).
  apply lift_inv in H6 as [H6 ->]. rewrite Hsize in H6. injection H6 as <-.
  apply bindM_inv in H as (formatted & m7 & H7 & H).
  apply lift_inv in H7 as [H7 ->].
  unfold JS.or_else in H7, H. rewrite Hzero in H7. rewrite Hfalsy in H.
  cbn in H7. injection H7 as <-.
  apply bindM_inv in H as (thumbnails & m8 & _ & H).
  unfold ret in H. injection H as <- _. split; reflexivity.
Qed.

(** A file that has an identifier, the empty name and the size zero, in
    data whose first key is another one. *)
Lemma fileInfoFromData_defaults_sample :
  exists v,
    fst (fileInfoFromData Sample.platform bare_file_data 0%nat) = Normal v
    /\ JS.get v "title" = Normal (JStr "Unknown")
    /\ JS.get v "size" = Normal (JStr "0 Bytes").
Proof.
  destruct (fileInfoFromData Sample.platform bare_file_data 0%nat)
    as [[v|e] n'] eqn:Hrun; [| vm_compute in Hrun; discriminate Hrun].
  exists v. split; [reflexivity |].
  apply (fileInfoFromData_defaults Sample.platform bare_file_data
           (JObj [("server", JStr "s1");
                  ("file_list",
                   JArr [JObj [("fs_id", JNum (Num.of_Z 5));
                               ("server_filename", JStr EmptyString);
                               ("size", JNum (Num.of_Z 0))]])])
           (JObj [("fs_id", JNum (Num.of_Z 5));
                  ("server_filename", JStr EmptyString);
                  ("size", JNum (Num.of_Z 0))])
           (JStr EmptyString) (JNum (Num.of_Z 0)) v [] 0%nat n').
  - vm_compute. reflexivity.
  - reflexivity.
  - reflexivity.
  - reflexivity.
  - reflexivity.
  - reflexivity.
  - exact Hrun.
Defined.
